(** * SCORMint: the SCORM adapter of [src/index.js]

    A shallow embedding of the class [SCORM]: its constructor, the
    discovery of the host API object ([findAPI]), the connection life cycle
    ([initialize], [terminate]) and the field access methods, followed by
    the properties of the behaviour of that code.

    JavaScript values are modelled by the fragment the class handles
    (numbers are the safe integers); the host API object is an arbitrary state
    machine answering the calls of the SCORM run-time interface; every call
    dispatched to it is recorded, with its answer, in a trace. *)

From Stdlib Require Import String ZArith List Bool Lia DecimalString RelationClasses.
From Equations Require Import Equations.
Import ListNotations.

Open Scope string_scope.

(** ** JavaScript values *)

(** A host object (an API object found in a window slot) is known by its
    reference only. *)
Definition Handle := nat.

(** The numbers of the model are the safe integers, those of magnitude at
    most [Number.MAX_SAFE_INTEGER] = 2^53 - 1: a double holds each of them
    exactly, and distinct ones are distinct doubles. Fractions, larger
    numbers, [NaN] and the infinities are left out. *)
Definition MAX_SAFE_INTEGER : Z := 9007199254740991.

Definition is_safe_integer (z : Z) : bool := (Z.abs z <=? MAX_SAFE_INTEGER)%Z.

Record SafeInteger : Type := {
  integer : Z;
  integer_is_safe : is_safe_integer integer = true
}.

(** The safe integer written [z]. *)
Notation "'safe' z" := (Build_SafeInteger z%Z eq_refl) (at level 10, z at level 9).

Inductive Value : Type :=
| VUndefined
| VNull
| VBool (b : bool)
| VNum (n : SafeInteger)
| VStr (s : string)
| VObj (h : Handle).

(** ToBoolean: [if (v)], [!v], [a && b], [a || b]. *)
Definition truthy (v : Value) : bool :=
  match v with
  | VUndefined | VNull => false
  | VBool b => b
  | VNum n => negb (integer n =? 0)%Z
  | VStr s => negb (s =? "")%string
  | VObj _ => true
  end.

(** [a === b] *)
Definition strict_eq (a b : Value) : bool :=
  match a, b with
  | VUndefined, VUndefined => true
  | VNull, VNull => true
  | VBool x, VBool y => Bool.eqb x y
  | VNum x, VNum y => (integer x =? integer y)%Z
  | VStr x, VStr y => (x =? y)%string
  | VObj x, VObj y => (x =? y)%nat
  | _, _ => false
  end.

(** [a && b] and [a || b] return one of their operands. *)
Definition js_and (a b : Value) : Value := if truthy a then b else a.
Definition js_or (a b : Value) : Value := if truthy a then a else b.

(** [typeof v === 'undefined'] *)
Definition is_undefined (v : Value) : bool :=
  match v with VUndefined => true | _ => false end.

(** [String(n)] and [n.toString()] on a number: for a safe integer the
    digits of its decimal writing, with a minus sign when negative (the
    exponent form starts at 10^21, and shortest digits differ from the exact
    ones above 2^53 only). *)
Definition number_to_string (n : SafeInteger) : string :=
  NilZero.string_of_int (Z.to_int (integer n)).

(** A version token is a string or left out ([@param {String} [version]]);
    [None] is [undefined]. *)
Definition version_value (version : option string) : Value :=
  match version with
  | None => VUndefined
  | Some s => VStr s
  end.

(** A version inside a template literal: [`${version}`]. *)
Definition version_text (version : option string) : string :=
  match version with
  | None => "undefined"
  | Some s => s
  end.

(** ** Errors *)

(** [Error] is [new Error(message)]; [TypeError] is what the engine throws
    on a property read of [null]/[undefined] or a call of a non-function
    (the wording of its message is the engine's, and nothing depends on
    it). *)
Inductive Exn : Type :=
| Error (message : string)
| TypeError (message : string).

Definition message_of (e : Exn) : string :=
  match e with
  | Error m => m
  | TypeError m => m
  end.

(** ** The instance *)

Definition VERSION_1_2 : string := "1.2".
Definition VERSION_2004 : string := "2004".

Record SCORM : Type := {
  updateStatusAfterInitialize : bool;
  updateStatusBeforeTerminate : bool;
  _version : option string;
  _depth : Z;
  _api : Value;
  _connected : bool
}.

(** [version !== SCORM.VERSION_x] on a version token. *)
Definition version_differs (version : option string) (literal : string) : bool :=
  negb (strict_eq (version_value version) (VStr literal)).

(** [new SCORM(version)]: an error or the fresh instance. *)
Definition constructor (version : option string) : Exn + SCORM :=
  if version_differs version VERSION_1_2 && version_differs version VERSION_2004
  then inl (Error ("Invalid version " ++ version_text version
                   ++ ". Expected: [" ++ VERSION_1_2 ++ ", " ++ VERSION_2004 ++ "]"))
  else inr {| updateStatusAfterInitialize := true;
              updateStatusBeforeTerminate := true;
              _version := version;
              _depth := 10;
              _api := VNull;
              _connected := false |}.

(** The getters [version] and [connected]. *)
Definition version (this : SCORM) : option string := _version this.
Definition connected (this : SCORM) : bool := _connected this.

(** [this.version == SCORM.VERSION_1_2]: on a string or [undefined] the
    loose comparison with a string is the comparison of strings. *)
Definition isV1 (this : SCORM) : bool :=
  match version this with
  | Some s => (s =? VERSION_1_2)%string
  | None => false
  end.

Definition isV2 (this : SCORM) : bool :=
  match version this with
  | Some s => (s =? VERSION_2004)%string
  | None => false
  end.

(** ** Windows *)

Definition WinRef := nat.

(** What the adapter reads of a window: [parent] and [opener] may be
    missing ([null]), [top] never is; the two slots hold any value. *)
Record Window : Type := {
  parent : option WinRef;
  top : WinRef;
  opener : option WinRef;
  API : Value;
  API_1484_11 : Value
}.

(** The windows of the page, by reference. *)
Definition Dom := WinRef -> Window.

(** ** The search loop of [findAPI] *)

(** How the body of the do-while ended: it fell through, or [break both]. *)
Inductive Completion : Type := Normal | BreakBoth.

Definition inspect {A} (a : A) : {b | a = b} := exist _ a eq_refl.

(** [window.parent && window.parent != window && attempts++ <= this._depth] *)
Definition keep_walking (depth : Z) (dom : Dom) (window : WinRef) (attempts : Z) : bool :=
  match parent (dom window) with
  | Some p => negb (p =? window)%nat && (attempts <=? depth)%Z
  | None => false
  end.

(** The do-while on one window. The body never replaces [window] by its
    parent: every round reads the same window. *)
Equations? do_while (depth : Z) (dom : Dom) (window : WinRef) (attempts : Z)
  (api1_2 api2004 : Value) : Completion * (Value * Value)
  by wf (Z.to_nat (depth + 1 - attempts)%Z) lt :=
do_while depth dom window attempts api1_2 api2004
  with inspect (truthy (js_or api1_2 (API (dom window)))
                && truthy (js_or api2004 (API_1484_11 (dom window)))) := {
  | exist _ true _ =>
      (BreakBoth, (js_or api1_2 (API (dom window)),
                   js_or api2004 (API_1484_11 (dom window))))
  | exist _ false _ with inspect (keep_walking depth dom window attempts) := {
    | exist _ true H =>
        do_while depth dom window (attempts + 1)%Z
                 (js_or api1_2 (API (dom window)))
                 (js_or api2004 (API_1484_11 (dom window)))
    | exist _ false _ =>
        (Normal, (js_or api1_2 (API (dom window)),
                  js_or api2004 (API_1484_11 (dom window)))) } }.
Proof.
  unfold keep_walking in H.
  destruct (parent (dom window)); [ | discriminate ].
  apply andb_true_iff in H. destruct H as [_ H]. apply Z.leb_le in H. lia.
Qed.

(** [both: for (let window of windows)]. An entry of the list may be
    [null] (as [window.top.opener] is when the page has no opener): the
    first slot read on it throws. *)
Fixpoint for_of (depth : Z) (dom : Dom) (windows : list (option WinRef))
  (api1_2 api2004 : Value) : Exn + (Value * Value) :=
  match windows with
  | [] => inr (api1_2, api2004)
  | None :: rest =>
      if truthy api1_2 then
        if truthy api2004 then inr (api1_2, api2004)
        else inl (TypeError "Cannot read properties of null (reading 'API_1484_11')")
      else inl (TypeError "Cannot read properties of null (reading 'API')")
  | Some window :: rest =>
      match do_while depth dom window 0 api1_2 api2004 with
      | (BreakBoth, found) => inr found
      | (Normal, (api1_2', api2004')) => for_of depth dom rest api1_2' api2004'
      end
  end.

(** The whole search: the two locals as initialised, then the loop. *)
Definition search (this : SCORM) (dom : Dom) (windows : list (option WinRef))
  : Exn + (Value * Value) :=
  let api1_2 := js_and (version_value (version this))
                       (VBool (version_differs (version this) VERSION_1_2)) in
  let api2004 := js_and (version_value (version this))
                        (VBool (version_differs (version this) VERSION_2004)) in
  for_of (_depth this) dom windows api1_2 api2004.

(** ** The host API object *)

(** The calls of the two shapes of the host object: the SCORM 1.2 names
    carry the prefix [LMS], the SCORM 2004 names do not. Arguments are as
    the adapter passes them. *)
Inductive Call : Type :=
| LMSInitialize (arg : string)
| LMSFinish (arg : string)
| LMSGetValue (key : string)
| LMSSetValue (key : string) (value : Value)
| LMSCommit (arg : string)
| LMSGetLastError
| LMSGetErrorString (code : string)
| Initialize (arg : string)
| Terminate (arg : string)
| GetValue (key : string)
| SetValue (key : string) (value : Value)
| Commit (arg : string)
| GetLastError
| GetErrorString (code : string).

(** One dispatch to the host: the object, the call and its answer. *)
Record Event : Type := {
  target : Handle;
  call : Call;
  answer : Value
}.

Inductive LogEntry : Type :=
| Log (args : list Value)
| Warn (args : list Value).

(** ** Outcomes and the state the methods run in *)

Inductive Outcome (A : Type) : Type :=
| Return (a : A)
| Throw (e : Exn).
Arguments Return {A} a.
Arguments Throw {A} e.

Section Host.

(** The host: its state, how an object answers a call, and what
    [toString()] of a host object gives. Every object answers every
    call (it has the shape of the run-time interface) and answers do
    not throw. *)
Variable HostState : Type.
Variable respond : Handle -> Call -> HostState -> Value * HostState.
Variable objToString : Handle -> string.

Record World : Type := {
  this : SCORM;
  host : HostState;
  trace : list Event;
  console : list LogEntry
}.

Definition M (A : Type) : Type := World -> Outcome A * World.

Definition ret {A} (a : A) : M A := fun w => (Return a, w).

Definition throw {A} (e : Exn) : M A := fun w => (Throw e, w).

Definition bind {A B} (m : M A) (k : A -> M B) : M B :=
  fun w =>
    match m w with
    | (Return a, w') => k a w'
    | (Throw e, w') => (Throw e, w')
    end.

(** [try { m } catch (error) { ... }]: the error, if any, as a value. *)
Definition try {A} (m : M A) : M (Exn + A) :=
  fun w =>
    match m w with
    | (Return a, w') => (Return (inr a), w')
    | (Throw e, w') => (Return (inl e), w')
    end.

Notation "x <- m ;; k" := (bind m (fun x => k))
  (at level 61, m at next level, right associativity).
Notation "m ;;; k" := (bind m (fun _ => k))
  (at level 61, right associativity).

Definition self : M SCORM := fun w => (Return (this w), w).

Definition update (f : SCORM -> SCORM) : M unit :=
  fun w => (Return tt, {| this := f (this w); host := host w;
                          trace := trace w; console := console w |}).

Definition set_version (v : option string) (s : SCORM) : SCORM :=
  {| updateStatusAfterInitialize := updateStatusAfterInitialize s;
     updateStatusBeforeTerminate := updateStatusBeforeTerminate s;
     _version := v; _depth := _depth s; _api := _api s;
     _connected := _connected s |}.

Definition set_api (a : Value) (s : SCORM) : SCORM :=
  {| updateStatusAfterInitialize := updateStatusAfterInitialize s;
     updateStatusBeforeTerminate := updateStatusBeforeTerminate s;
     _version := _version s; _depth := _depth s; _api := a;
     _connected := _connected s |}.

Definition set_connected (c : bool) (s : SCORM) : SCORM :=
  {| updateStatusAfterInitialize := updateStatusAfterInitialize s;
     updateStatusBeforeTerminate := updateStatusBeforeTerminate s;
     _version := _version s; _depth := _depth s; _api := _api s;
     _connected := c |}.

Definition set_updateStatusAfterInitialize (b : bool) (s : SCORM) : SCORM :=
  {| updateStatusAfterInitialize := b;
     updateStatusBeforeTerminate := updateStatusBeforeTerminate s;
     _version := _version s; _depth := _depth s; _api := _api s;
     _connected := _connected s |}.

Definition set_updateStatusBeforeTerminate (b : bool) (s : SCORM) : SCORM :=
  {| updateStatusAfterInitialize := updateStatusAfterInitialize s;
     updateStatusBeforeTerminate := b;
     _version := _version s; _depth := _depth s; _api := _api s;
     _connected := _connected s |}.

Definition console_log (args : list Value) : M unit :=
  fun w => (Return tt, {| this := this w; host := host w; trace := trace w;
                          console := console w ++ [Log args] |}).

Definition console_warn (args : list Value) : M unit :=
  fun w => (Return tt, {| this := this w; host := host w; trace := trace w;
                          console := console w ++ [Warn args] |}).

(** The call of a method of the host object [h], recorded in the trace. *)
Definition dispatch (h : Handle) (c : Call) : M Value :=
  fun w =>
    let (r, host') := respond h c (host w) in
    (Return r, {| this := this w; host := host';
                  trace := trace w ++ [{| target := h; call := c; answer := r |}];
                  console := console w |}).

(** [api.method(args)]: the method is looked up on [api] (which throws on
    [null] and [undefined]), then the arguments are evaluated, then the
    method is called (which throws when [api] is no host object). *)
Definition invoke (api : Value) (args : M Call) : M Value :=
  match api with
  | VUndefined | VNull =>
      throw (TypeError "Cannot read properties of null or undefined")
  | VObj h => c <- args ;; dispatch h c
  | _ => _ <- args ;; throw (TypeError "not a function")
  end.

(** [String(v)] *)
Definition String_ (v : Value) : string :=
  match v with
  | VUndefined => "undefined"
  | VNull => "null"
  | VBool true => "true"
  | VBool false => "false"
  | VNum n => number_to_string n
  | VStr s => s
  | VObj h => objToString h
  end.

(** [v.toString()] *)
Definition toString (v : Value) : M string :=
  match v with
  | VUndefined | VNull =>
      throw (TypeError "Cannot read properties of null or undefined (reading 'toString')")
  | _ => ret (String_ v)
  end.

(** ** The methods *)

Definition notConnected : M Value :=
  console_warn [VStr "SCORM API not connected"] ;;;
  ret VNull.

Definition get (key : string) : M Value :=
  s <- self ;;
  if negb (_connected s) then notConnected
  else if isV1 s then invoke (_api s) (ret (LMSGetValue key))
       else invoke (_api s) (ret (GetValue key)).

Definition set (key : string) (value : Value) : M Value :=
  s <- self ;;
  if negb (_connected s) then notConnected
  else if isV1 s then invoke (_api s) (ret (LMSSetValue key value))
       else invoke (_api s) (ret (SetValue key (VStr (String_ value)))).

Definition status (status : Value) : M Value :=
  s <- self ;;
  if negb (_connected s) then notConnected
  else
    let cmi := if isV1 s then "cmi.core.lesson_status" else "cmi.completion_status" in
    if is_undefined status then get cmi
    else set cmi status.

Definition save : M Value :=
  s <- self ;;
  if negb (_connected s) then notConnected
  else if isV1 s then invoke (_api s) (ret (LMSCommit ""))
       else invoke (_api s) (ret (Commit "")).

Definition lastErrorCode : M Value :=
  s <- self ;;
  if negb (_connected s) then notConnected
  else if isV1 s then invoke (_api s) (ret LMSGetLastError)
       else invoke (_api s) (ret GetLastError).

Definition errorString (code : Value) : M Value :=
  s <- self ;;
  if negb (_connected s) then notConnected
  else if isV1 s
       then invoke (_api s) (c <- toString code ;; ret (LMSGetErrorString c))
       else invoke (_api s) (c <- toString code ;; ret (GetErrorString c)).

(** [findAPI(windows)]. After the loop [window] is no longer the loop
    variable (a [let] of the [for]) but the global object of the page,
    [global] here; the two locals of the loop are not read again. The
    method returns [this]. *)
Definition findAPI (dom : Dom) (global : WinRef) (windows : list (option WinRef))
  : M unit :=
  s <- self ;;
  match search s dom windows with
  | inl e => throw e
  | inr _ =>
      if truthy (version_value (version s)) then
        update (set_api (if isV1 s then API (dom global)
                         else API_1484_11 (dom global))) ;;;
        s <- self ;;
        if negb (truthy (_api s))
        then throw (Error ("SCORM " ++ version_text (version s)
                           ++ " API requested but not found"))
        else ret tt
      else
        (if truthy (API (dom global)) then
           update (set_version (Some VERSION_1_2)) ;;;
           update (set_api (API (dom global)))
         else if truthy (API_1484_11 (dom global)) then
           update (set_version (Some VERSION_2004)) ;;;
           update (set_api (API_1484_11 (dom global)))
         else ret tt) ;;;
        s <- self ;;
        if negb (truthy (_api s))
        then throw (Error "SCORM API not found")
        else ret tt
  end.

(** The condition under which [initialize] moves the status on. *)
Definition not_started (completion : Value) : bool :=
  negb (truthy completion)
  || strict_eq completion (VStr "not attempted")
  || strict_eq completion (VStr "unknown").

Definition initialize (dom : Dom) (global : WinRef) : M Value :=
  s <- self ;;
  if _connected s then
    console_log [VStr "SCORM API already connected"] ;;;
    ret VUndefined
  else
    found <- try (findAPI dom global
                    [Some global; opener (dom (top (dom global)))]) ;;
    match found with
    | inl error =>
        console_warn [VStr (message_of error)] ;;;
        ret VUndefined
    | inr _ =>
        s <- self ;;
        connected <- (if isV1 s then invoke (_api s) (ret (LMSInitialize ""))
                      else invoke (_api s) (ret (Initialize ""))) ;;
        (if negb (truthy connected)
         then console_warn [VStr "Could not connect to SCORM API"]
         else ret tt) ;;;
        update (set_connected true) ;;;
        s <- self ;;
        if updateStatusAfterInitialize s then
          completion <- status VUndefined ;;
          if not_started completion then
            status (VStr "incomplete") ;;;
            save ;;;
            ret VUndefined
          else ret VUndefined
        else ret VUndefined
    end.

Definition terminate : M Value :=
  s <- self ;;
  if negb (_connected s) then notConnected
  else
    (if updateStatusBeforeTerminate s then
       completion <- status VUndefined ;;
       s <- self ;;
       if negb (strict_eq completion (VStr "completed"))
          && negb (strict_eq completion (VStr "passed"))
       then set (if isV1 s then "cmi.core.exit" else "cmi.exit") (VStr "suspend") ;;;
            ret tt
       else set (if isV1 s then "cmi.core.exit" else "cmi.exit")
                (VStr (if isV1 s then "logout" else "normal")) ;;;
            ret tt
     else ret tt) ;;;
    save ;;;
    s <- self ;;
    success <- (if isV1 s then invoke (_api s) (ret (LMSFinish ""))
                else invoke (_api s) (ret (Terminate ""))) ;;
    if negb (truthy success) then
      code <- lastErrorCode ;;
      text <- errorString code ;;
      console_warn [VStr "SCORM API Failed to connect! Error:"; text] ;;;
      ret VUndefined
    else
      update (set_connected false) ;;;
      ret VUndefined.

End Host.

Arguments this {HostState} w.
Arguments host {HostState} w.
Arguments trace {HostState} w.
Arguments console {HostState} w.
Arguments ret {HostState A} a w.
Arguments throw {HostState A} e w.
Arguments bind {HostState A B} m k w.
Arguments try {HostState A} m w.
Arguments self {HostState} w.
Arguments update {HostState} f w.
Arguments console_log {HostState} args w.
Arguments console_warn {HostState} args w.
Arguments dispatch {HostState} respond h c w.
Arguments invoke {HostState} respond api args w.
Arguments toString {HostState} objToString v w.
Arguments notConnected {HostState} w.
Arguments get {HostState} respond key w.
Arguments set {HostState} respond objToString key value w.
Arguments status {HostState} respond objToString status w.
Arguments save {HostState} respond w.
Arguments lastErrorCode {HostState} respond w.
Arguments errorString {HostState} respond objToString code w.
Arguments findAPI {HostState} dom global windows w.
Arguments initialize {HostState} respond objToString dom global w.
Arguments terminate {HostState} respond objToString w.

(** ** What a caller can do with an instance *)

(** The public members and the protected [findAPI], each with the page it
    runs in where it reads one. *)
Inductive Operation : Type :=
| DoInitialize (dom : Dom) (global : WinRef)
| DoTerminate
| DoStatus (status : Value)
| DoGet (key : string)
| DoSet (key : string) (value : Value)
| DoSave
| DoLastErrorCode
| DoErrorString (code : Value)
| DoFindAPI (dom : Dom) (global : WinRef) (windows : list (option WinRef))
| PutUpdateStatusAfterInitialize (b : bool)
| PutUpdateStatusBeforeTerminate (b : bool).

Section Calls.

Variable HostState : Type.
Variable respond : Handle -> Call -> HostState -> Value * HostState.
Variable objToString : Handle -> string.

Definition perform (op : Operation) : M HostState Value :=
  match op with
  | DoInitialize dom global => initialize respond objToString dom global
  | DoTerminate => terminate respond objToString
  | DoStatus st => status respond objToString st
  | DoGet key => get respond key
  | DoSet key value => set respond objToString key value
  | DoSave => save respond
  | DoLastErrorCode => lastErrorCode respond
  | DoErrorString code => errorString respond objToString code
  | DoFindAPI dom global windows =>
      bind (findAPI dom global windows) (fun _ => ret VUndefined)
  | PutUpdateStatusAfterInitialize b =>
      bind (update (set_updateStatusAfterInitialize b)) (fun _ => ret VUndefined)
  | PutUpdateStatusBeforeTerminate b =>
      bind (update (set_updateStatusBeforeTerminate b)) (fun _ => ret VUndefined)
  end.

(** A caller goes on after an error: the state is what the failed call
    left. *)
Fixpoint perform_all (ops : list Operation) (w : World HostState) : World HostState :=
  match ops with
  | [] => w
  | op :: rest => perform_all rest (snd (perform op w))
  end.

(** The world around a newly built instance. *)
Definition fresh (s : SCORM) (h : HostState) : World HostState :=
  {| this := s; host := h; trace := []; console := [] |}.

End Calls.

Arguments perform {HostState} respond objToString op w.
Arguments perform_all {HostState} respond objToString ops w.
Arguments fresh {HostState} s h.

(** ** Reading a trace *)

Definition is_commit (c : Call) : bool :=
  match c with
  | LMSCommit _ | Commit _ => true
  | _ => false
  end.

Definition is_end_session (c : Call) : bool :=
  match c with
  | LMSFinish _ | Terminate _ => true
  | _ => false
  end.

Definition is_set_value (c : Call) : bool :=
  match c with
  | LMSSetValue _ _ | SetValue _ _ => true
  | _ => false
  end.

Definition is_get_value (c : Call) : bool :=
  match c with
  | LMSGetValue _ | GetValue _ => true
  | _ => false
  end.

Definition is_last_error (c : Call) : bool :=
  match c with
  | LMSGetLastError | GetLastError => true
  | _ => false
  end.

Definition calls (t : list Event) : list Call := map call t.

Definition count (p : Call -> bool) (t : list Event) : nat :=
  length (filter p (calls t)).

(** The answers of the end-session calls of a trace. *)
Definition end_session_answers (t : list Event) : list Value :=
  map answer (filter (fun e => is_end_session (call e)) t).

(** ** The vocabulary of the statements *)

Definition event (h : Handle) (c : Call) (a : Value) : Event :=
  {| target := h; call := c; answer := a |}.

(** The test [if (this.version)] of [findAPI]: the version is set. *)
Definition has_version (s : SCORM) : bool := truthy (version_value (version s)).

(** The version is left alone, once there is one. *)
Definition same_version (s s' : SCORM) : Prop :=
  has_version s = true -> version s' = version s.

(** A connected instance holds a host object. *)
Definition on_host (s : SCORM) : Prop :=
  _connected s = true -> exists h, _api s = VObj h.

(** Nothing changed but, possibly, the connection being closed. *)
Definition at_most_closed (s s' : SCORM) : Prop :=
  s' = s \/ s' = set_connected false s.

(** The public members: all but the protected [findAPI]. *)
Definition public (op : Operation) : bool :=
  match op with
  | DoFindAPI _ _ _ => false
  | _ => true
  end.

(** [v] is [null] or [undefined]: a value with no properties. *)
Definition nullish (v : Value) : bool :=
  match v with
  | VUndefined | VNull => true
  | _ => false
  end.

(** The status field of a version. *)
Definition status_field (s : SCORM) : string :=
  if isV1 s then "cmi.core.lesson_status" else "cmi.completion_status".

(** The call that begins a session, for a version. *)
Definition begin_session (s : SCORM) : Call :=
  if isV1 s then LMSInitialize "" else Initialize "".

(** The two tokens that name a version. *)
Definition recognized (token : option string) : bool :=
  match token with
  | Some s => (s =? VERSION_1_2)%string || (s =? VERSION_2004)%string
  | None => false
  end.

(** The slot [findAPI] reads for an instance with a version. *)
Definition pinned_slot (s : SCORM) (w : Window) : Value :=
  if isV1 s then API w else API_1484_11 w.

(** The status counts as done when it is ["completed"] or ["passed"]. *)
Definition finished (completion : Value) : bool :=
  strict_eq completion (VStr "completed") || strict_eq completion (VStr "passed").

Definition exit_reason (v1 : bool) (completion : Value) : string :=
  if finished completion then (if v1 then "logout" else "normal") else "suspend".

Section Vocabulary.

Variable HostState : Type.

(** A call that answers [null] and leaves the instance, the host and the
    trace of dispatched calls as they were. *)
Definition answers_null_quietly (m : M HostState Value) (w : World HostState) : Prop :=
  fst (m w) = Return VNull
  /\ this (snd (m w)) = this w
  /\ host (snd (m w)) = host w
  /\ trace (snd (m w)) = trace w.

(** A computation after which the instance is related to what it was. *)
Definition keeps {A} (R : SCORM -> SCORM -> Prop) (m : M HostState A) : Prop :=
  forall w, R (this w) (this (snd (m w))).

(** The world with one more entry in the console. *)
Definition logged (entry : LogEntry) (w : World HostState) : World HostState :=
  {| this := this w; host := host w; trace := trace w;
     console := (console w ++ [entry])%list |}.

(** The world after an autodetection that resolved the version. *)
Definition resolved (v : string) (a : Value) (w : World HostState) : World HostState :=
  {| this := set_api a (set_version (Some v) (this w)); host := host w;
     trace := trace w; console := console w |}.

Definition with_api (a : Value) (w : World HostState) : World HostState :=
  {| this := set_api a (this w); host := host w;
     trace := trace w; console := console w |}.

End Vocabulary.

Arguments answers_null_quietly {HostState} m w.
Arguments with_api {HostState} a w.
Arguments logged {HostState} entry w.
Arguments resolved {HostState} v a w.
Arguments keeps {HostState A} R m.

(** ** A small host for the examples *)

(** A learning management system that stores what it is given and
    answers the end of the session as configured. *)
Record Lms : Type := {
  fields : list (string * Value);
  finish_answer : Value;
  last_error : Value
}.

Fixpoint lookup (key : string) (l : list (string * Value)) : Value :=
  match l with
  | [] => VStr ""
  | (k, v) :: rest => if (k =? key)%string then v else lookup key rest
  end.

Definition store (key : string) (v : Value) (s : Lms) : Lms :=
  {| fields := (key, v) :: fields s;
     finish_answer := finish_answer s;
     last_error := last_error s |}.

Definition lms_respond (h : Handle) (c : Call) (s : Lms) : Value * Lms :=
  match c with
  | LMSInitialize _ | Initialize _ => (VStr "true", s)
  | LMSFinish _ | Terminate _ => (finish_answer s, s)
  | LMSGetValue key | GetValue key => (lookup key (fields s), s)
  | LMSSetValue key v | SetValue key v => (VStr "true", store key v s)
  | LMSCommit _ | Commit _ => (VStr "true", s)
  | LMSGetLastError | GetLastError => (last_error s, s)
  | LMSGetErrorString code | GetErrorString code => (VStr ("error " ++ code), s)
  end.

Definition lms_objToString (h : Handle) : string := "[object Object]".

Definition lms_empty : Lms :=
  {| fields := []; finish_answer := VStr "true"; last_error := VStr "0" |}.

(** The instance [new SCORM(version)] would give were the token accepted,
    with its private fields as given. *)
Definition instance (version : option string) (api : Value) (connected : bool) : SCORM :=
  {| updateStatusAfterInitialize := true;
     updateStatusBeforeTerminate := true;
     _version := version;
     _depth := 10;
     _api := api;
     _connected := connected |}.

(** A window with no parent, no opener and empty slots, its own top. *)
Definition bare (self : WinRef) : Window :=
  {| parent := None; top := self; opener := None;
     API := VUndefined; API_1484_11 := VUndefined |}.

(** *** Pages *)

(** A page with nothing in it: every window is bare. *)
Definition page_empty : Dom := bare.

(** A top-level page that holds the SCORM 1.2 API object [7] itself. *)
Definition page_with_api : Dom :=
  fun r =>
    match r with
    | 0 => {| parent := Some 0; top := 0; opener := None;
              API := VObj 7; API_1484_11 := VUndefined |}
    | _ => bare r
    end.

(** The content (window [0], the global one) runs in a frame of the
    window [1] of the learning management system, which holds the SCORM 1.2
    API object [7]. *)
Definition page_framed : Dom :=
  fun r =>
    match r with
    | 0 => {| parent := Some 1; top := 1; opener := None;
              API := VUndefined; API_1484_11 := VUndefined |}
    | _ => {| parent := Some 1; top := 1; opener := None;
              API := VObj 7; API_1484_11 := VUndefined |}
    end.

(** The content (window [0], the global one) was opened by the window [1],
    which holds the SCORM 1.2 API object [7]. *)
Definition page_opened : Dom :=
  fun r =>
    match r with
    | 0 => {| parent := Some 0; top := 0; opener := Some 1;
              API := VUndefined; API_1484_11 := VUndefined |}
    | _ => {| parent := Some 1; top := 1; opener := None;
              API := VObj 7; API_1484_11 := VUndefined |}
    end.

(** Two unrelated windows, each with an API object of its own: [9] in the
    global window [0], [7] in the window [1]. *)
Definition page_two_apis : Dom :=
  fun r =>
    match r with
    | 0 => {| parent := Some 0; top := 0; opener := None;
              API := VObj 9; API_1484_11 := VUndefined |}
    | _ => {| parent := Some 1; top := 1; opener := None;
              API := VObj 7; API_1484_11 := VObj 8 |}
    end.

(** The page [page_framed] with the API object taken out of the parent
    window. *)
Definition bare_framed : Dom :=
  fun r =>
    match r with
    | 0 => {| parent := Some 1; top := 1; opener := None;
              API := VUndefined; API_1484_11 := VUndefined |}
    | _ => bare r
    end.

(** A top-level page whose SCORM 1.2 slot holds a string, not an object. *)
Definition page_odd : Dom :=
  fun r =>
    match r with
    | 0 => {| parent := Some 0; top := 0; opener := None;
              API := VStr "api"; API_1484_11 := VUndefined |}
    | _ => bare r
    end.

(** *** Worlds *)

(** A newly built instance for the given version, before any call. *)
Definition world_new (version : string) : World Lms :=
  fresh (instance (Some version) VNull false) lms_empty.

(** A connected instance for the given version, on the API object [7] of a
    host in the given state. *)
Definition world_connected (version : string) (lms : Lms) : World Lms :=
  fresh (instance (Some version) (VObj 7) true) lms.

(** An instance without a version, as the autodetection of [findAPI]
    expects one, before any call. *)
Definition world_unversioned : World Lms :=
  fresh (instance None VNull false) lms_empty.

(** A host whose end of session fails without an error code to report. *)
Definition lms_silent : Lms :=
  {| fields := []; finish_answer := VBool false; last_error := VNull |}.

(** A host whose end of session fails and whose status is as given. *)
Definition lms_failing (status : string) : Lms :=
  {| fields := [("cmi.core.lesson_status", VStr status);
                ("cmi.completion_status", VStr status)];
     finish_answer := VStr "";
     last_error := VStr "101" |}.

(** * Properties *)

(** ** Construction *)

Lemma constructor_accepts (version : option string) :
  (exists s, constructor version = inr s)
  <-> version = Some VERSION_1_2 \/ version = Some VERSION_2004.
Proof.
  unfold constructor, version_differs. split.
  - intros [s H]. destruct version as [v | ]; simpl in H; [ | discriminate ].
    destruct (String.eqb_spec v VERSION_1_2) as [-> | _]; [ now left | ].
    destruct (String.eqb_spec v VERSION_2004) as [-> | _]; [ now right | ].
    discriminate.
  - intros [-> | ->]; simpl; eauto.
Qed.

Lemma constructor_fields (version : option string) (s : SCORM) :
  constructor version = inr s -> s = instance version VNull false.
Proof.
  unfold constructor.
  destruct (version_differs version VERSION_1_2 && version_differs version VERSION_2004);
    [ discriminate | ].
  intros H. injection H as <-. reflexivity.
Qed.

(** C1. The documentation of the constructor says to leave the version
    blank for autodetection; the constructor throws on a version left out,
    and on the empty string, as on every token other than the two literals:
    it builds an instance for the two literals only. *)
Theorem constructor_rejects_absent_version :
  constructor None
    = inl (Error "Invalid version undefined. Expected: [1.2, 2004]")
  /\ constructor (Some "")
    = inl (Error "Invalid version . Expected: [1.2, 2004]")
  /\ forall token,
       constructor token
       = if recognized token
         then inr (instance token VNull false)
         else inl (Error ("Invalid version " ++ version_text token
                          ++ ". Expected: [1.2, 2004]")).
Proof.
  split; [ reflexivity | split; [ reflexivity | ] ].
  intros [v | ]; [ | reflexivity ].
  unfold constructor, version_differs, recognized. cbn.
  destruct (v =? VERSION_1_2)%string, (v =? VERSION_2004)%string; reflexivity.
Qed.

(** ** The search loop *)

(** The do-while, read as the source has it. *)
Lemma do_while_round depth dom window attempts a1 a2 :
  do_while depth dom window attempts a1 a2
  = if truthy (js_or a1 (API (dom window))) && truthy (js_or a2 (API_1484_11 (dom window)))
    then (BreakBoth, (js_or a1 (API (dom window)), js_or a2 (API_1484_11 (dom window))))
    else if keep_walking depth dom window attempts
         then do_while depth dom window (attempts + 1)%Z
                (js_or a1 (API (dom window))) (js_or a2 (API_1484_11 (dom window)))
         else (Normal, (js_or a1 (API (dom window)), js_or a2 (API_1484_11 (dom window)))).
Proof.
  rewrite do_while_equation_1.
  generalize (inspect (truthy (js_or a1 (API (dom window)))
                       && truthy (js_or a2 (API_1484_11 (dom window))))).
  intros [b Hb].
  assert (R : forall X Y : Completion * (Value * Value),
             (if truthy (js_or a1 (API (dom window)))
                 && truthy (js_or a2 (API_1484_11 (dom window)))
              then X else Y) = if b then X else Y)
    by (intros; now rewrite Hb).
  rewrite R. clear R. destruct b; [ reflexivity | ].
  cbn [do_while_unfold_clause_1].
  generalize (inspect (keep_walking depth dom window attempts)).
  intros [k Hk].
  assert (R : forall X Y : Completion * (Value * Value),
             (if keep_walking depth dom window attempts then X else Y)
             = if k then X else Y)
    by (intros; now rewrite Hk).
  rewrite R. clear R. destruct k; reflexivity.
Qed.

(** The loop on a window reads that window only: what its parent holds
    plays no part. *)
Lemma do_while_local depth dom dom' window attempts a1 a2 :
  dom window = dom' window ->
  do_while depth dom window attempts a1 a2 = do_while depth dom' window attempts a1 a2.
Proof.
  intros E.
  remember (Z.to_nat (depth + 1 - attempts)) as n eqn:Hn.
  revert attempts a1 a2 Hn.
  induction n as [n IH] using lt_wf_ind. intros attempts a1 a2 Hn.
  rewrite (do_while_round depth dom), (do_while_round depth dom').
  unfold keep_walking. rewrite <- E.
  destruct (truthy _ && truthy _); [ reflexivity | ].
  destruct (parent (dom window)) as [p | ]; [ | reflexivity ].
  destruct (negb (p =? window)%nat); [ | reflexivity ]. cbn.
  destruct (Z.leb_spec attempts depth); [ | reflexivity ].
  apply (IH (Z.to_nat (depth + 1 - (attempts + 1)))); [ lia | reflexivity ].
Qed.

Lemma for_of_local depth dom dom' windows a1 a2 :
  (forall r, In (Some r) windows -> dom r = dom' r) ->
  for_of depth dom windows a1 a2 = for_of depth dom' windows a1 a2.
Proof.
  revert a1 a2. induction windows as [ | [r | ] rest IH]; intros a1 a2 H; cbn.
  - reflexivity.
  - rewrite (do_while_local depth dom dom') by (apply H; now left).
    destruct (do_while depth dom' r 0 a1 a2) as [[ | ] [b1 b2]]; [ | reflexivity ].
    apply IH. intros r' Hr'. apply H. now right.
  - reflexivity.
Qed.

(** On a list with no [null] entry the loop runs to its end. *)
Lemma for_of_total depth dom (ws : list WinRef) a1 a2 :
  exists found, for_of depth dom (map Some ws) a1 a2 = inr found.
Proof.
  revert a1 a2. induction ws as [ | r rest IH]; intros a1 a2; cbn.
  - eauto.
  - destruct (do_while depth dom r 0 a1 a2) as [[ | ] [b1 b2]]; eauto.
Qed.

(** A window whose two slots are found at once ends the whole loop. *)
Lemma for_of_break depth dom window rest a1 a2 :
  truthy (js_or a1 (API (dom window)))
  && truthy (js_or a2 (API_1484_11 (dom window))) = true ->
  exists found, for_of depth dom (Some window :: rest) a1 a2 = inr found.
Proof.
  intros H. cbn. rewrite do_while_round, H. eauto.
Qed.

(** The loop throws on a [null] entry, and nothing else. *)
Lemma for_of_throws depth dom windows a1 a2 e :
  for_of depth dom windows a1 a2 = inl e ->
  (exists m, e = TypeError m) /\ In None windows.
Proof.
  revert a1 a2. induction windows as [ | [r | ] rest IH]; intros a1 a2; cbn.
  - discriminate.
  - destruct (do_while depth dom r 0 a1 a2) as [[ | ] [b1 b2]]; [ | discriminate ].
    intros H. destruct (IH _ _ H) as [Hm Hin]. split; [ exact Hm | now right ].
  - destruct (truthy a1), (truthy a2); intros H; try discriminate;
      injection H as <-; split; eauto.
Qed.

Lemma search_throws s dom windows e :
  search s dom windows = inl e -> exists m, e = TypeError m.
Proof.
  unfold search. intros H. apply for_of_throws in H. tauto.
Qed.

(** A window holding the slot of a pinned instance ends the loop at once,
    whatever comes after it in the list. *)
Lemma search_finds_first s dom window rest :
  version s = Some VERSION_1_2 \/ version s = Some VERSION_2004 ->
  truthy (if isV1 s then API (dom window) else API_1484_11 (dom window)) = true ->
  exists found, search s dom (Some window :: rest) = inr found.
Proof.
  intros Hv Hslot. unfold search. apply for_of_break.
  unfold isV1 in Hslot.
  destruct Hv as [E | E]; rewrite E in *; cbn in *;
    unfold js_or; cbn; rewrite Hslot; cbn; rewrite ?Hslot; reflexivity.
Qed.

(** The string of a number at the ends of the range and around zero. *)
Example number_to_string_examples :
  number_to_string (safe 9007199254740991) = "9007199254740991"
  /\ number_to_string (safe (-9007199254740991)) = "-9007199254740991"
  /\ number_to_string (safe 0) = "0"
  /\ number_to_string (safe (-7)) = "-7".
Proof. repeat split. Qed.

Lemma strict_eq_string (v : Value) (s : string) :
  strict_eq v (VStr s) = true <-> v = VStr s.
Proof.
  destruct v; cbn; split; try discriminate.
  - intros H. apply String.eqb_eq in H. now subst.
  - intros H. injection H as ->. apply String.eqb_refl.
Qed.

Section Properties.

Variable HostState : Type.
Variable respond : Handle -> Call -> HostState -> Value * HostState.
Variable objToString : Handle -> string.

(** ** The guard of the disconnected state *)

Lemma notConnected_quiet (w : World HostState) : answers_null_quietly notConnected w.
Proof. repeat split. Qed.

(** C5. On a disconnected instance each of [get], [set], [status], [save],
    [lastErrorCode] and [errorString] returns [null] and dispatches
    nothing to the host. *)
Theorem disconnected_operations_return_null (w : World HostState) :
  _connected (this w) = false ->
  (forall key, answers_null_quietly (get respond key) w)
  /\ (forall key value, answers_null_quietly (set respond objToString key value) w)
  /\ (forall st, answers_null_quietly (status respond objToString st) w)
  /\ answers_null_quietly (save respond) w
  /\ answers_null_quietly (lastErrorCode respond) w
  /\ (forall code, answers_null_quietly (errorString respond objToString code) w).
Proof.
  intros H.
  repeat split; intros;
    unfold get, set, status, save, lastErrorCode, errorString, bind, self;
    cbn; rewrite H; reflexivity.
Qed.

(** ** Symbolic execution of the methods *)

Local Arguments isV1 : simpl never.
Local Arguments findAPI : simpl never.

Ltac unfold_methods :=
  cbv [terminate initialize status get set save lastErrorCode errorString
       notConnected invoke dispatch toString bind ret throw try self update
       console_warn console_log set_connected set_api];
  cbn.

(** Runs the code as far as the facts at hand on the instance allow. *)
Ltac settle :=
  cbn;
  repeat (match goal with
          | |- context [isV1 (Build_SCORM ?a ?b (_version ?s) ?d ?e ?c)] =>
              change (isV1 (Build_SCORM a b (_version s) d e c)) with (isV1 s)
          | H : _connected ?s = _ |- context [_connected ?s] => rewrite H
          | H : _api ?s = _ |- context [_api ?s] => rewrite H
          | H : isV1 ?s = _ |- context [isV1 ?s] => rewrite H
          | H : updateStatusBeforeTerminate ?s = _
            |- context [updateStatusBeforeTerminate ?s] => rewrite H
          | H : updateStatusAfterInitialize ?s = _
            |- context [updateStatusAfterInitialize ?s] => rewrite H
          end; cbn).

(** The same, naming the answer of each call of the host on the way. *)
Ltac execute :=
  settle;
  repeat (match goal with
          | |- context [respond ?h ?c ?s] =>
              destruct (respond h c s) as [? ?] eqn:?
          end; settle).

(** ** Field access *)

(** X17. On a connected SCORM 2004 instance [set] hands [String(value)] to
    [SetValue]: the host receives a string whatever was passed. *)
Lemma set_v2004_coerces (w : World HostState) (h : Handle) (key : string) (value : Value) :
  _connected (this w) = true ->
  isV1 (this w) = false ->
  _api (this w) = VObj h ->
  trace (snd (set respond objToString key value w))
  = (trace w ++ [{| target := h;
                    call := SetValue key (VStr (String_ objToString value));
                    answer := fst (respond h (SetValue key (VStr (String_ objToString value)))
                                           (host w)) |}])%list.
Proof.
  intros Hc Hv Ha. unfold set, bind, self. cbn. rewrite Hc, Hv, Ha. cbn.
  unfold bind, ret, dispatch. cbn.
  destruct (respond h _ (host w)). reflexivity.
Qed.

(** C4. On a connected SCORM 1.2 instance [set] hands the value to
    [LMSSetValue] as it is, not as a string. *)
Theorem set_v1_passes_value_unconverted
  (w : World HostState) (h : Handle) (key : string) (value : Value) :
  _connected (this w) = true ->
  isV1 (this w) = true ->
  _api (this w) = VObj h ->
  trace (snd (set respond objToString key value w))
  = (trace w ++ [{| target := h;
                    call := LMSSetValue key value;
                    answer := fst (respond h (LMSSetValue key value) (host w)) |}])%list.
Proof.
  intros Hc Hv Ha. unfold set, bind, self. cbn. rewrite Hc, Hv, Ha. cbn.
  unfold bind, ret, dispatch. cbn.
  destruct (respond h _ (host w)). reflexivity.
Qed.

(** ** The end of the session *)

(** C6. [terminate] on a connected instance dispatches the end of the
    session at most once, and exactly once when [_api] is a host object;
    [connected] is false afterwards exactly when the host answered that
    call with a truthy value: on a falsy answer, and when the call was not
    reached, [connected] stays true. *)
Theorem terminate_disconnects_on_success_only (w : World HostState) :
  _connected (this w) = true ->
  exists new,
    trace (snd (terminate respond objToString w)) = (trace w ++ new)%list
    /\ match end_session_answers new with
       | [] =>
           _connected (this (snd (terminate respond objToString w))) = true
           /\ forall h, _api (this w) <> VObj h
       | [success] =>
           _connected (this (snd (terminate respond objToString w)))
           = negb (truthy success)
       | _ => False
       end.
Proof.
  intros Hc. destruct w as [s hs tr co]. cbn in Hc.
  destruct (updateStatusBeforeTerminate s) eqn:Hu, (isV1 s) eqn:Hv,
           (_api s) as [ | | b | n | t | h] eqn:Ha.
  all: unfold_methods; execute.
  all: repeat match goal with
         | |- context [if negb (truthy ?v) then _ else _] =>
             destruct (truthy v) eqn:?; execute
         | |- context [if negb (strict_eq ?a ?b) && _ then _ else _] =>
             destruct (strict_eq a b); execute
         | |- context [if negb (strict_eq ?a ?b) then _ else _] =>
             destruct (strict_eq a b); execute
         | |- context [match ?v with VUndefined => _ | _ => _ end] =>
             destruct v eqn:?; execute
         end.
  all: eexists; (split; [ repeat rewrite <- app_assoc; try reflexivity;
                          symmetry; apply app_nil_r | ]); cbn.
  all: first [ split; [ first [ reflexivity | assumption ] | intros; discriminate ]
             | match goal with
               | H : truthy ?v = _ |- _ => rewrite H; reflexivity
               end ].
Qed.

(** ** Discovery *)

(** [findAPI] on an instance whose version is set: the loop may throw;
    past it the slot of the global window is stored, then tested. *)
Lemma findAPI_pinned dom global windows (w : World HostState) :
  truthy (version_value (version (this w))) = true ->
  findAPI dom global windows w
  = match search (this w) dom windows with
    | inl e => (Throw e, w)
    | inr _ =>
        (if truthy (pinned_slot (this w) (dom global))
         then Return tt
         else Throw (Error ("SCORM " ++ version_text (version (this w))
                            ++ " API requested but not found")),
         with_api (pinned_slot (this w) (dom global)) w)
    end.
Proof.
  intros Hv. unfold findAPI, bind, self. cbn.
  destruct (search (this w) dom windows) as [e | found]; [ reflexivity | ].
  rewrite Hv. unfold update, pinned_slot, with_api. cbn.
  destruct (truthy (if isV1 (this w) then _ else _)); reflexivity.
Qed.

(** X15. The searched windows decide one thing only: whether the loop
    throws. With no [null] among them the result of discovery, and the
    instance it leaves, are those of an empty list. *)
Lemma findAPI_reads_global_window dom global (ws : list WinRef) (w : World HostState) :
  findAPI dom global (map Some ws) w = findAPI dom global [] w.
Proof.
  unfold findAPI, bind, self, search. cbn.
  destruct (for_of_total (_depth (this w)) dom ws
              (js_and (version_value (version (this w)))
                      (VBool (version_differs (version (this w)) VERSION_1_2)))
              (js_and (version_value (version (this w)))
                      (VBool (version_differs (version (this w)) VERSION_2004))))
    as [found ->].
  reflexivity.
Qed.

(** X16. No window is read but the listed ones and the global one: what
    the ancestors of a listed window hold changes nothing. *)
Lemma findAPI_ignores_ancestors dom dom' global windows (w : World HostState) :
  (forall r, In (Some r) windows -> dom r = dom' r) ->
  dom global = dom' global ->
  findAPI dom global windows w = findAPI dom' global windows w.
Proof.
  intros Hl Hg. unfold findAPI, bind, self, search. cbn.
  rewrite (for_of_local _ dom dom') by exact Hl.
  rewrite Hg. reflexivity.
Qed.

(** C9, as amended. When [findAPI] fails with the error of an API not
    found, the version and [connected] are exactly as before the call (and
    so are the host and the trace); [_api] need not be as before: it is
    falsy after the failure. *)
Theorem failed_findAPI_keeps_version_and_connected
  dom global windows (w : World HostState) (message : string) :
  fst (findAPI dom global windows w) = Throw (Error message) ->
  version (this (snd (findAPI dom global windows w))) = version (this w)
  /\ _connected (this (snd (findAPI dom global windows w))) = _connected (this w)
  /\ host (snd (findAPI dom global windows w)) = host w
  /\ trace (snd (findAPI dom global windows w)) = trace w
  /\ truthy (_api (this (snd (findAPI dom global windows w)))) = false.
Proof.
  destruct (truthy (version_value (version (this w)))) eqn:Hv.
  - rewrite findAPI_pinned by exact Hv.
    destruct (search (this w) dom windows) as [e' | found] eqn:Hs; cbn.
    + intros H. injection H as ->. destruct (search_throws _ _ _ _ Hs) as [m' E].
      discriminate.
    + destruct (truthy (pinned_slot (this w) (dom global))) eqn:Hslot;
        [ discriminate | ].
      intros _. repeat split; try assumption; reflexivity.
  - unfold findAPI, bind, self. cbn.
    destruct (search (this w) dom windows) as [e' | found] eqn:Hs; cbn.
    + intros H. injection H as ->. destruct (search_throws _ _ _ _ Hs) as [m' E].
      discriminate.
    + rewrite Hv. unfold update, ret, throw. cbn.
      destruct (truthy (API (dom global))) eqn:H1; cbn.
      * rewrite H1. cbn. discriminate.
      * destruct (truthy (API_1484_11 (dom global))) eqn:H2; cbn.
        -- rewrite H2. cbn. discriminate.
        -- destruct (truthy (_api (this w))) eqn:Ha; cbn; [ discriminate | ].
           intros _. repeat split; try assumption; reflexivity.
Qed.

(** ** The status on the way in and on the way out *)

(** C8. With [updateStatusBeforeTerminate] set, [terminate] on a connected
    instance reads the status, writes the exit field of its version
    (["logout"] or ["normal"] when the status is ["completed"] or
    ["passed"], ["suspend"] otherwise), commits, and only then ends the
    session; what follows holds no further write, commit or end of
    session. *)
Theorem terminate_sets_exit_then_saves (w : World HostState) (h : Handle) :
  _connected (this w) = true ->
  _api (this w) = VObj h ->
  updateStatusBeforeTerminate (this w) = true ->
  exists completion a1 a2 a3 rest,
    trace (snd (terminate respond objToString w))
    = (trace w
       ++ (if isV1 (this w)
           then [event h (LMSGetValue "cmi.core.lesson_status") completion;
                 event h (LMSSetValue "cmi.core.exit"
                                      (VStr (exit_reason true completion))) a1;
                 event h (LMSCommit "") a2;
                 event h (LMSFinish "") a3]
           else [event h (GetValue "cmi.completion_status") completion;
                 event h (SetValue "cmi.exit"
                                   (VStr (exit_reason false completion))) a1;
                 event h (Commit "") a2;
                 event h (Terminate "") a3])
       ++ rest)%list
    /\ count is_set_value rest = 0
    /\ count is_commit rest = 0
    /\ count is_end_session rest = 0.
Proof.
  intros Hc Ha Hu. destruct w as [s hs tr co]. cbn in Hc, Ha, Hu.
  destruct (isV1 s) eqn:Hv.
  all: unfold_methods; unfold exit_reason, finished; settle.
  all: match goal with
       | |- context [respond ?h ?c ?s] =>
           let completion := fresh "completion" in
           destruct (respond h c s) as [completion ?] eqn:?; exists completion;
           destruct (strict_eq completion (VStr "completed")),
                    (strict_eq completion (VStr "passed"))
       end.
  all: execute.
  all: repeat match goal with
         | |- context [if negb (truthy ?v) then _ else _] =>
             destruct (truthy v) eqn:?; execute
         | |- context [match ?v with VUndefined => _ | _ => _ end] =>
             destruct v eqn:?; execute
         end.
  all: do 4 eexists; (split; [ repeat rewrite <- app_assoc; reflexivity | ]); cbn; auto.
Qed.

Lemma not_started_spec (completion : Value) :
  not_started completion = true
  <-> truthy completion = false
      \/ completion = VStr "not attempted" \/ completion = VStr "unknown".
Proof.
  unfold not_started. rewrite !orb_true_iff, negb_true_iff, !strict_eq_string.
  tauto.
Qed.

(** C7. [initialize] on a disconnected instance with
    [updateStatusAfterInitialize] set, in a page whose global window
    holds the API object of the version: the session is begun, the status
    is read, and, when the host reports it empty (falsy), ["not
    attempted"] or ["unknown"], it is set to ["incomplete"] and one commit
    follows; on any other status nothing more is dispatched. *)
Theorem initialize_moves_status_on
  dom global (w : World HostState) (h : Handle) :
  _connected (this w) = false ->
  updateStatusAfterInitialize (this w) = true ->
  version (this w) = Some VERSION_1_2 \/ version (this w) = Some VERSION_2004 ->
  pinned_slot (this w) (dom global) = VObj h ->
  exists a0 completion tail,
    trace (snd (initialize respond objToString dom global w))
    = (trace w
       ++ (if isV1 (this w)
           then [event h (LMSInitialize "") a0;
                 event h (LMSGetValue "cmi.core.lesson_status") completion]
           else [event h (Initialize "") a0;
                 event h (GetValue "cmi.completion_status") completion])
       ++ tail)%list
    /\ _connected (this (snd (initialize respond objToString dom global w))) = true
    /\ (truthy completion = false
        \/ completion = VStr "not attempted" \/ completion = VStr "unknown" ->
        exists a1 a2,
          tail = if isV1 (this w)
                 then [event h (LMSSetValue "cmi.core.lesson_status"
                                            (VStr "incomplete")) a1;
                       event h (LMSCommit "") a2]
                 else [event h (SetValue "cmi.completion_status"
                                         (VStr "incomplete")) a1;
                       event h (Commit "") a2])
    /\ (truthy completion = true ->
        completion <> VStr "not attempted" -> completion <> VStr "unknown" ->
        tail = []).
Proof.
  intros Hc Hu Hversion Hslot.
  assert (Hpinned : truthy (version_value (version (this w))) = true)
    by (destruct Hversion as [-> | ->]; reflexivity).
  destruct (search_finds_first (this w) dom global
              [opener (dom (top (dom global)))] Hversion) as [found Hfound].
  { unfold pinned_slot in Hslot. rewrite Hslot. reflexivity. }
  unfold initialize, bind, try, self at 1. cbn. rewrite Hc.
  rewrite findAPI_pinned by exact Hpinned. rewrite Hfound, Hslot. cbn.
  destruct w as [s hs tr co]. cbn in Hc, Hu, Hslot |- *.
  unfold with_api. cbn.
  destruct (isV1 s) eqn:Hv.
  all: unfold_methods; settle.
  all: match goal with
       | |- context [respond ?h ?c ?s] =>
           destruct (respond h c s) as [a0 ?] eqn:?; exists a0
       end.
  all: destruct (truthy a0); settle.
  all: match goal with
       | |- context [respond ?h ?c ?s] =>
           let completion := fresh "completion" in
           destruct (respond h c s) as [completion ?] eqn:?; exists completion;
           pose proof (not_started_spec completion) as Hspec;
           destruct (not_started completion)
       end.
  all: execute.
  all: eexists; (split; [ repeat rewrite <- app_assoc; reflexivity | ]).
  all: split; [ reflexivity | ].
  all: split;
    [ intros H; first [ apply Hspec in H; discriminate | do 2 eexists; reflexivity ] | ].
  all: intros H1 H2 H3; try reflexivity.
  all: destruct (proj1 Hspec eq_refl) as [C | [C | C]]; congruence.
Qed.

(** ** What the methods leave alone *)

#[local] Instance same_version_preorder : PreOrder same_version.
Proof.
  split.
  - intros s _. reflexivity.
  - intros a b c Hab Hbc Ha. unfold same_version, has_version in *.
    rewrite Hbc; [ now apply Hab | ]. rewrite Hab; assumption.
Qed.

Section Keeps.

Context (R : SCORM -> SCORM -> Prop) `{!PreOrder R}.

Lemma keeps_ret {A} (a : A) : keeps R (@ret HostState A a).
Proof. intros w. reflexivity. Qed.

Lemma keeps_throw {A} (e : Exn) : keeps R (@throw HostState A e).
Proof. intros w. reflexivity. Qed.

Lemma keeps_self : keeps R (@self HostState).
Proof. intros w. reflexivity. Qed.

Lemma keeps_console_warn args : keeps R (@console_warn HostState args).
Proof. intros w. reflexivity. Qed.

Lemma keeps_console_log args : keeps R (@console_log HostState args).
Proof. intros w. reflexivity. Qed.

Lemma keeps_update f : (forall s, R s (f s)) -> keeps R (@update HostState f).
Proof. intros H w. cbn. apply H. Qed.

Lemma keeps_dispatch h c : keeps R (dispatch respond h c).
Proof. intros w. unfold dispatch. destruct (respond h c (host w)). reflexivity. Qed.

Lemma keeps_bind {A B} (m : M HostState A) (k : A -> M HostState B) :
  keeps R m -> (forall a, keeps R (k a)) -> keeps R (bind m k).
Proof.
  intros Hm Hk w. unfold bind.
  specialize (Hm w). destruct (m w) as [[a | e] w']; cbn in *.
  - etransitivity; [ exact Hm | apply Hk ].
  - exact Hm.
Qed.

Lemma keeps_try {A} (m : M HostState A) : keeps R m -> keeps R (try m).
Proof.
  intros Hm w. unfold try. specialize (Hm w).
  destruct (m w) as [[a | e] w']; exact Hm.
Qed.

Ltac keeps :=
  repeat first
    [ apply keeps_ret | apply keeps_throw | apply keeps_self
    | apply keeps_console_warn | apply keeps_console_log
    | apply keeps_dispatch
    | apply keeps_try
    | apply keeps_bind; [ | intros ? ]
    | match goal with
      | |- keeps _ (if ?b then _ else _) => destruct b
      | |- keeps _ (match ?x with _ => _ end) => destruct x
      end ].

Lemma keeps_invoke api args : keeps R args -> keeps R (invoke respond api args).
Proof. intros H. unfold invoke. destruct api; keeps; exact H. Qed.

Lemma keeps_toString v : keeps R (@toString HostState objToString v).
Proof. unfold toString. keeps. Qed.

Ltac keeps_methods :=
  repeat first [ apply keeps_invoke | apply keeps_toString | progress keeps ].

(** The field access methods never write to the instance. *)

Lemma keeps_notConnected : keeps R (@notConnected HostState).
Proof. unfold notConnected. keeps. Qed.

Lemma keeps_get key : keeps R (get respond key).
Proof. unfold get. keeps_methods. Qed.

Lemma keeps_set key value : keeps R (set respond objToString key value).
Proof. unfold set. keeps_methods. Qed.

Lemma keeps_status st : keeps R (status respond objToString st).
Proof. unfold status. keeps_methods. Qed.

Lemma keeps_save : keeps R (save respond).
Proof. unfold save. keeps_methods. Qed.

Lemma keeps_lastErrorCode : keeps R (lastErrorCode respond).
Proof. unfold lastErrorCode. keeps_methods. Qed.

Lemma keeps_errorString code : keeps R (errorString respond objToString code).
Proof. unfold errorString. keeps_methods. Qed.

End Keeps.

(** ** The version over the life of an instance *)

Lemma keeps_version_findAPI dom global windows :
  keeps same_version (@findAPI HostState dom global windows).
Proof.
  intros w Hw. rewrite findAPI_pinned by exact Hw.
  destruct (search (this w) dom windows); reflexivity.
Qed.

Ltac keeps_version :=
  repeat first
    [ exact same_version_preorder
    | apply keeps_version_findAPI
    | apply keeps_status | apply keeps_save | apply keeps_set
    | apply keeps_lastErrorCode | apply keeps_errorString | apply keeps_notConnected
    | apply keeps_invoke
    | apply keeps_ret | apply keeps_console_warn | apply keeps_console_log
    | apply keeps_self
    | apply keeps_update; [ exact same_version_preorder || idtac .. | intros ? ?; reflexivity ]
    | apply keeps_try
    | apply keeps_bind; [ | | intros ? ]
    | match goal with
      | |- keeps _ (if ?b then _ else _) => destruct b
      | |- keeps _ (match ?x with _ => _ end) => destruct x
      end ].

Lemma keeps_version_initialize dom global :
  keeps same_version (initialize respond objToString dom global).
Proof. unfold initialize. keeps_version. Qed.

Lemma keeps_version_terminate : keeps same_version (terminate respond objToString).
Proof. unfold terminate. keeps_version. Qed.

Lemma keeps_version_perform op : keeps same_version (perform respond objToString op).
Proof.
  destruct op; cbn [perform];
    first [ apply keeps_version_initialize | apply keeps_version_terminate
          | apply keeps_status | apply keeps_get | apply keeps_set | apply keeps_save
          | apply keeps_lastErrorCode | apply keeps_errorString
          | keeps_version ];
    exact same_version_preorder.
Qed.

(** ** A connected instance holds a host object *)

#[local] Instance at_most_closed_preorder : PreOrder at_most_closed.
Proof.
  split.
  - intros s. now left.
  - intros a b c [-> | ->] [-> | ->]; unfold at_most_closed; auto.
Qed.

Lemma terminate_at_most_closes : keeps at_most_closed (terminate respond objToString).
Proof.
  unfold terminate.
  repeat first
    [ exact at_most_closed_preorder
    | apply keeps_status | apply keeps_save | apply keeps_set
    | apply keeps_lastErrorCode | apply keeps_errorString | apply keeps_notConnected
    | apply keeps_invoke
    | apply keeps_ret | apply keeps_console_warn | apply keeps_self
    | apply keeps_update; [ exact at_most_closed_preorder || idtac ..
                          | intros ?; right; reflexivity ]
    | apply keeps_bind; [ | | intros ? ]
    | match goal with
      | |- keeps _ (if ?b then _ else _) => destruct b
      end ].
Qed.

Lemma initialize_on_host dom global (w : World HostState) :
  has_version (this w) = true ->
  on_host (this w) ->
  on_host (this (snd (initialize respond objToString dom global w))).
Proof.
  intros Hv Hh. unfold initialize, bind, try, self at 1. cbn.
  destruct (_connected (this w)) eqn:Hc; [ exact Hh | ].
  rewrite findAPI_pinned by exact Hv.
  destruct (search (this w) dom _) as [e | found]; cbn; [ exact Hh | ].
  destruct w as [s hs tr co]. cbn in Hc |- *.
  unfold pinned_slot, with_api, on_host.
  destruct (isV1 s) eqn:Hv1;
    [ destruct (API (dom global)) as [ | | b | n | t | h]
    | destruct (API_1484_11 (dom global)) as [ | | b | n | t | h] ].
  all: unfold_methods; execute.
  all: repeat match goal with
         | |- context [if ?c then _ else _] => destruct c eqn:?; execute
         end.
  all: first [ intros _; exists h; reflexivity | congruence ].
Qed.

Lemma perform_on_host op (w : World HostState) :
  public op = true ->
  has_version (this w) = true ->
  on_host (this w) ->
  on_host (this (snd (perform respond objToString op w))).
Proof.
  intros Hp Hv Hh. destruct op; cbn [perform]; try discriminate.
  - apply initialize_on_host; assumption.
  - destruct (terminate_at_most_closes w) as [-> | ->]; [ exact Hh | ].
    intros H. discriminate.
  - now rewrite <- (keeps_status eq).
  - now rewrite <- (keeps_get eq).
  - now rewrite <- (keeps_set eq).
  - now rewrite <- (keeps_save eq).
  - now rewrite <- (keeps_lastErrorCode eq).
  - now rewrite <- (keeps_errorString eq).
  - exact Hh.
  - exact Hh.
Qed.

(** X18. An instance that is built and then used through its public
    members is never connected without a host object in [_api]. *)
Lemma connected_instance_on_host
  (version : option string) (s : SCORM) (h : HostState) (ops : list Operation) :
  constructor version = inr s ->
  forallb public ops = true ->
  on_host (this (perform_all respond objToString ops (fresh s h))).
Proof.
  intros Hs Hops.
  assert (Hv : has_version (this (fresh s h)) = true).
  { apply constructor_fields in Hs as Hf. subst s.
    destruct (proj1 (constructor_accepts version)) as [-> | ->]; eauto. }
  assert (Hh : on_host (this (fresh s h))).
  { apply constructor_fields in Hs. subst s. intros H. discriminate. }
  clear Hs. revert Hv Hh. generalize (fresh s h). clear s h.
  induction ops as [ | op rest IH]; intros w Hv Hh; cbn.
  - exact Hh.
  - cbn in Hops. apply andb_true_iff in Hops as [Hop Hrest].
    apply IH; [ exact Hrest | | apply perform_on_host; assumption ].
    pose proof (keeps_version_perform op w Hv) as E.
    unfold has_version in *. now rewrite E.
Qed.

Lemma perform_all_keeps_version ops (w : World HostState) :
  has_version (this w) = true ->
  version (this (perform_all respond objToString ops w)) = version (this w).
Proof.
  revert w. induction ops as [ | op rest IH]; intros w Hw; cbn.
  - reflexivity.
  - pose proof (keeps_version_perform op w Hw) as H.
    rewrite IH; [ exact H | ]. unfold has_version in *. now rewrite H.
Qed.

(** C10. A constructed instance was given one of the two version tokens,
    and whatever is called on it afterwards, in whatever page, its version
    is that token: exactly one of [isV1] and [isV2] holds, and the test
    [if (this.version)] of [findAPI] succeeds, so that its autodetecting
    branch is never entered. *)
Theorem version_fixed_at_construction
  (token : option string) (s : SCORM) (h : HostState) (ops : list Operation) :
  constructor token = inr s ->
  (token = Some VERSION_1_2 \/ token = Some VERSION_2004)
  /\ version (this (perform_all respond objToString ops (fresh s h))) = token
  /\ xorb (isV1 (this (perform_all respond objToString ops (fresh s h))))
          (isV2 (this (perform_all respond objToString ops (fresh s h)))) = true
  /\ has_version (this (perform_all respond objToString ops (fresh s h))) = true.
Proof.
  intros Hs.
  assert (Hv : token = Some VERSION_1_2 \/ token = Some VERSION_2004)
    by (apply constructor_accepts; eauto).
  apply constructor_fields in Hs. subst s.
  assert (Hk : version (this (perform_all respond objToString ops
                                 (fresh (instance token VNull false) h)))
               = token).
  { rewrite perform_all_keeps_version; [ reflexivity | ].
    destruct Hv as [-> | ->]; reflexivity. }
  split; [ exact Hv | ]. split; [ exact Hk | ].
  unfold isV1, isV2, has_version. rewrite Hk.
  destruct Hv as [-> | ->]; repeat split.
Qed.

(** * Further properties of the methods *)

(** ** The loop, round after round *)

Lemma js_or_again (a x : Value) : js_or (js_or a x) x = js_or a x.
Proof.
  unfold js_or. destruct (truthy a) eqn:Ha; [ now rewrite Ha | ].
  destruct (truthy x); reflexivity.
Qed.

(** The rounds of the do-while after the first one change nothing. *)
Lemma do_while_once depth dom window attempts a1 a2 :
  do_while depth dom window attempts a1 a2
  = (if truthy (js_or a1 (API (dom window)))
        && truthy (js_or a2 (API_1484_11 (dom window)))
     then BreakBoth else Normal,
     (js_or a1 (API (dom window)), js_or a2 (API_1484_11 (dom window)))).
Proof.
  remember (Z.to_nat (depth + 1 - attempts)) as n eqn:Hn.
  revert attempts a1 a2 Hn.
  induction n as [n IH] using lt_wf_ind. intros attempts a1 a2 Hn.
  rewrite do_while_round.
  destruct (truthy (js_or a1 _) && truthy (js_or a2 _)) eqn:Hb; [ reflexivity | ].
  destruct (keep_walking depth dom window attempts) eqn:Hk; [ | reflexivity ].
  rewrite (IH (Z.to_nat (depth + 1 - (attempts + 1)))); [ | | reflexivity ].
  - rewrite !js_or_again, Hb. reflexivity.
  - unfold keep_walking in Hk. destruct (parent (dom window)); [ | discriminate ].
    apply andb_true_iff in Hk as [_ Hk]. apply Z.leb_le in Hk. lia.
Qed.

(** X1. The search depth buys nothing: the do-while on a window ends the
    same way whatever the depth and the count of attempts it starts from,
    namely as its first round does, with the two locals completed from the
    slots of that very window and [break both] exactly when both are then
    truthy. *)
Theorem do_while_ignores_depth depth depth' dom window attempts attempts' a1 a2 :
  do_while depth dom window attempts a1 a2
  = do_while depth' dom window attempts' a1 a2
  /\ snd (do_while depth dom window attempts a1 a2)
     = (js_or a1 (API (dom window)), js_or a2 (API_1484_11 (dom window)))
  /\ fst (do_while depth dom window attempts a1 a2)
     = if truthy (js_or a1 (API (dom window)))
          && truthy (js_or a2 (API_1484_11 (dom window)))
       then BreakBoth else Normal.
Proof.
  rewrite !do_while_once. repeat split.
Qed.

(** ** What discovery leaves alone *)

Lemma findAPI_frame dom global windows (w : World HostState) :
  host (snd (findAPI dom global windows w)) = host w
  /\ trace (snd (findAPI dom global windows w)) = trace w
  /\ console (snd (findAPI dom global windows w)) = console w
  /\ _connected (this (snd (findAPI dom global windows w))) = _connected (this w).
Proof.
  unfold findAPI, bind, self. cbn.
  destruct (search (this w) dom windows); cbn; [ repeat split | ].
  destruct (truthy (version_value (version (this w)))); cbn.
  - destruct (negb (truthy _)); repeat split.
  - destruct (truthy (API (dom global))); cbn;
      [ | destruct (truthy (API_1484_11 (dom global))); cbn ];
      destruct (negb (truthy _)); repeat split.
Qed.

(** X2. Discovery writes to [_api] (and, when it autodetects, to the
    version) and to nothing else: it dispatches no call to the host, logs
    nothing, and leaves [connected], the depth and the two public flags as
    they were, whether it succeeds or throws. *)
Theorem findAPI_touches_api_only dom global windows (w : World HostState) :
  host (snd (findAPI dom global windows w)) = host w
  /\ trace (snd (findAPI dom global windows w)) = trace w
  /\ console (snd (findAPI dom global windows w)) = console w
  /\ _connected (this (snd (findAPI dom global windows w))) = _connected (this w)
  /\ _depth (this (snd (findAPI dom global windows w))) = _depth (this w)
  /\ updateStatusAfterInitialize (this (snd (findAPI dom global windows w)))
     = updateStatusAfterInitialize (this w)
  /\ updateStatusBeforeTerminate (this (snd (findAPI dom global windows w)))
     = updateStatusBeforeTerminate (this w).
Proof.
  destruct (findAPI_frame dom global windows w) as (Hh & Ht & Hco & Hc).
  repeat (split; [ assumption | ]).
  unfold findAPI, bind, self. cbn.
  destruct (search (this w) dom windows); cbn; [ repeat split | ].
  destruct (truthy (version_value (version (this w)))); cbn.
  - destruct (negb (truthy _)); repeat split.
  - destruct (truthy (API (dom global))); cbn;
      [ | destruct (truthy (API_1484_11 (dom global))); cbn ];
      destruct (negb (truthy _)); repeat split.
Qed.

(** ** The guards of [initialize] and [terminate] *)

(** X3. [initialize] on a connected instance does nothing but log
    ['SCORM API already connected']: no discovery, no call to the host,
    the instance as it was. *)
Theorem initialize_when_connected dom global (w : World HostState) :
  _connected (this w) = true ->
  initialize respond objToString dom global w
  = (Return VUndefined, logged (Log [VStr "SCORM API already connected"]) w).
Proof.
  intros Hc. unfold initialize, bind, self. cbn. rewrite Hc. reflexivity.
Qed.

(** X4. [terminate] on a disconnected instance returns [null] and
    dispatches nothing, like the field access methods. *)
Theorem terminate_when_disconnected (w : World HostState) :
  _connected (this w) = false ->
  answers_null_quietly (terminate respond objToString) w.
Proof.
  intros Hc. unfold answers_null_quietly, terminate, bind, self. cbn.
  rewrite Hc. repeat split.
Qed.

(** ** Field access *)

(** X5. [status] is [get] or [set] on the status field of the version, in
    every state of the instance: it reads when its argument is [undefined]
    (also when [undefined] is passed on purpose) and writes otherwise. *)
Theorem status_is_get_or_set (st : Value) (w : World HostState) :
  status respond objToString st w
  = if is_undefined st
    then get respond (status_field (this w)) w
    else set respond objToString (status_field (this w)) st w.
Proof.
  destruct w as [s hs tr co].
  unfold status, status_field, get, set, bind, self. cbn.
  destruct (_connected s) eqn:Hc, (is_undefined st); cbn; rewrite ?Hc; reflexivity.
Qed.

(** X6. None of [get], [set], [status], [save], [lastErrorCode] and
    [errorString] ever writes to the instance, connected or not, whatever
    the host answers and also when the call throws. *)
Theorem field_access_keeps_instance (w : World HostState) :
  (forall key, this (snd (get respond key w)) = this w)
  /\ (forall key value, this (snd (set respond objToString key value w)) = this w)
  /\ (forall st, this (snd (status respond objToString st w)) = this w)
  /\ this (snd (save respond w)) = this w
  /\ this (snd (lastErrorCode respond w)) = this w
  /\ (forall code, this (snd (errorString respond objToString code w)) = this w).
Proof.
  repeat split; intros; symmetry.
  - apply (keeps_get eq).
  - apply (keeps_set eq).
  - apply (keeps_status eq).
  - apply (keeps_save eq).
  - apply (keeps_lastErrorCode eq).
  - apply (keeps_errorString eq).
Qed.

(** ** The ways of [initialize] *)

(** X7. With [updateStatusAfterInitialize] off, [initialize] in a page
    whose global window holds the API object dispatches the begin of the
    session and nothing else, and the instance is connected whatever the
    host answered: a falsy answer only adds the warning ['Could not connect
    to SCORM API']. *)
Theorem initialize_without_status_update
  dom global (w : World HostState) (h : Handle) :
  _connected (this w) = false ->
  updateStatusAfterInitialize (this w) = false ->
  version (this w) = Some VERSION_1_2 \/ version (this w) = Some VERSION_2004 ->
  pinned_slot (this w) (dom global) = VObj h ->
  initialize respond objToString dom global w
  = (Return VUndefined,
     {| this := set_connected true (set_api (VObj h) (this w));
        host := snd (respond h (begin_session (this w)) (host w));
        trace := (trace w
                  ++ [event h (begin_session (this w))
                            (fst (respond h (begin_session (this w)) (host w)))])%list;
        console := (console w
                    ++ if truthy (fst (respond h (begin_session (this w)) (host w)))
                       then []
                       else [Warn [VStr "Could not connect to SCORM API"]])%list |}).
Proof.
  intros Hc Hu Hversion Hslot.
  assert (Hpinned : truthy (version_value (version (this w))) = true)
    by (destruct Hversion as [-> | ->]; reflexivity).
  destruct (search_finds_first (this w) dom global
              [opener (dom (top (dom global)))] Hversion) as [found Hfound].
  { unfold pinned_slot in Hslot. rewrite Hslot. reflexivity. }
  unfold initialize, bind, try, self at 1. cbn. rewrite Hc.
  rewrite findAPI_pinned by exact Hpinned. rewrite Hfound, Hslot. cbn.
  destruct w as [s hs tr co]. cbn in Hc, Hu, Hslot |- *.
  unfold with_api, begin_session. cbn.
  destruct (isV1 s) eqn:Hv.
  all: unfold_methods; settle.
  all: match goal with
       | |- context [respond ?h ?c ?s] => destruct (respond h c s) as [a0 ?]
       end.
  all: settle; destruct (truthy a0); settle; rewrite ?app_nil_r; reflexivity.
Qed.

(** X8. A discovery that throws does not make [initialize] throw: the
    error is caught, its message is logged as a warning, nothing is
    dispatched to the host and the instance stays disconnected. *)
Theorem initialize_absorbs_failed_discovery
  dom global (w : World HostState) (e : Exn) :
  _connected (this w) = false ->
  fst (findAPI dom global [Some global; opener (dom (top (dom global)))] w) = Throw e ->
  fst (initialize respond objToString dom global w) = Return VUndefined
  /\ host (snd (initialize respond objToString dom global w)) = host w
  /\ trace (snd (initialize respond objToString dom global w)) = trace w
  /\ _connected (this (snd (initialize respond objToString dom global w))) = false
  /\ console (snd (initialize respond objToString dom global w))
     = (console w ++ [Warn [VStr (message_of e)]])%list.
Proof.
  intros Hc He.
  destruct (findAPI_frame dom global [Some global; opener (dom (top (dom global)))] w)
    as (Hh & Ht & Hco & Hcn).
  unfold initialize, bind, try, self at 1. cbn. rewrite Hc.
  destruct (findAPI dom global _ w) as [[u | e'] w']; cbn in *; [ discriminate | ].
  injection He as ->. rewrite Hh, Ht, Hco, Hcn. repeat split. exact Hc.
Qed.

(** X9. [initialize] connects a disconnected instance exactly when the
    global window itself holds a host object in the slot of the instance's
    version: no other window, listed or not, can make it connect. *)
Theorem initialize_connects_iff dom global (w : World HostState) :
  _connected (this w) = false ->
  version (this w) = Some VERSION_1_2 \/ version (this w) = Some VERSION_2004 ->
  _connected (this (snd (initialize respond objToString dom global w))) = true
  <-> exists h, pinned_slot (this w) (dom global) = VObj h.
Proof.
  intros Hc Hversion.
  assert (Hpinned : truthy (version_value (version (this w))) = true)
    by (destruct Hversion as [-> | ->]; reflexivity).
  unfold initialize, bind, try, self at 1. cbn. rewrite Hc.
  rewrite findAPI_pinned by exact Hpinned.
  destruct (pinned_slot (this w) (dom global)) as [ | | b | n | t | h] eqn:Hslot.
  6: { destruct (search_finds_first (this w) dom global
                   [opener (dom (top (dom global)))] Hversion) as [found Hfound].
       { unfold pinned_slot in Hslot. rewrite Hslot. reflexivity. }
       rewrite Hfound. cbn.
       destruct w as [s hs tr co]. cbn in Hc |- *. unfold with_api. cbn.
       destruct (isV1 s) eqn:Hv1.
       all: unfold_methods; execute.
       all: repeat match goal with
              | |- context [if ?c then _ else _] => destruct c eqn:?; execute
              end.
       all: split; [ intros _; exists h; reflexivity | reflexivity ]. }
  all: destruct (search (this w) dom _) as [e | found]; cbn.
  all: destruct w as [s hs tr co]; cbn in Hc |- *; unfold with_api; cbn.
  all: try (split; [ congruence | intros [h' H]; discriminate ]).
  all: destruct (isV1 s) eqn:Hv1.
  all: unfold_methods; execute.
  all: repeat match goal with
         | |- context [if ?c then _ else _] => destruct c eqn:?; execute
         end.
  all: split; [ congruence | intros [h' H]; discriminate ].
Qed.

(** ** The ways of [terminate] *)

(** X10. With [updateStatusBeforeTerminate] off, [terminate] on a connected
    instance neither reads the status nor writes the exit field: it
    commits, ends the session, and after that queries the error at most. *)
Theorem terminate_without_status_update (w : World HostState) (h : Handle) :
  _connected (this w) = true ->
  _api (this w) = VObj h ->
  updateStatusBeforeTerminate (this w) = false ->
  exists a1 a2 rest,
    trace (snd (terminate respond objToString w))
    = (trace w
       ++ (if isV1 (this w)
           then [event h (LMSCommit "") a1; event h (LMSFinish "") a2]
           else [event h (Commit "") a1; event h (Terminate "") a2])
       ++ rest)%list
    /\ count is_get_value rest = 0
    /\ count is_set_value rest = 0
    /\ count is_commit rest = 0
    /\ count is_end_session rest = 0.
Proof.
  intros Hc Ha Hu. destruct w as [s hs tr co]. cbn in Hc, Ha, Hu.
  destruct (isV1 s) eqn:Hv.
  all: unfold_methods; execute.
  all: repeat match goal with
         | |- context [if negb (truthy ?v) then _ else _] =>
             destruct (truthy v) eqn:?; execute
         | |- context [match ?v with VUndefined => _ | _ => _ end] =>
             destruct v eqn:?; execute
         end.
  all: do 3 eexists; (split; [ repeat rewrite <- app_assoc; reflexivity | ]); cbn; auto.
Qed.

(** X11. [terminate] on a connected instance with a host object returns
    [undefined], except in one case, where it throws a [TypeError]: the end
    of the session failed and the host then gave [null] or [undefined] as
    its last error code, on which [code.toString()] throws. The instance is
    still connected then, and the query of the error code is the last call
    dispatched. *)
Theorem terminate_throws_on_nullish_error_code_only (w : World HostState) (h : Handle) :
  _connected (this w) = true ->
  _api (this w) = VObj h ->
  match fst (terminate respond objToString w) with
  | Return v => v = VUndefined
  | Throw e =>
      exists m before c code,
        e = TypeError m
        /\ trace (snd (terminate respond objToString w))
           = (before ++ [event h c code])%list
        /\ is_last_error c = true
        /\ nullish code = true
        /\ _connected (this (snd (terminate respond objToString w))) = true
  end.
Proof.
  intros Hc Ha. destruct w as [s hs tr co]. cbn in Hc, Ha.
  destruct (updateStatusBeforeTerminate s) eqn:Hu, (isV1 s) eqn:Hv.
  all: unfold_methods; execute.
  all: repeat match goal with
         | |- context [if negb (truthy ?v) then _ else _] =>
             destruct (truthy v) eqn:?; execute
         | |- context [if negb (strict_eq ?a ?b) && _ then _ else _] =>
             destruct (strict_eq a b); execute
         | |- context [if negb (strict_eq ?a ?b) then _ else _] =>
             destruct (strict_eq a b); execute
         | |- context [match ?v with VUndefined => _ | _ => _ end] =>
             destruct v eqn:?; execute
         end.
  all: try reflexivity.
  all: do 4 eexists; split; [ reflexivity | ];
    split; [ reflexivity | ]; repeat split; assumption.
Qed.

(** X12. [errorString] on a connected instance with a host object turns
    the code into a string and asks the host for its text; on a code that
    is [null] or [undefined] it throws instead, before anything is
    dispatched. *)
Theorem errorString_converts_code (w : World HostState) (h : Handle) (code : Value) :
  _connected (this w) = true ->
  _api (this w) = VObj h ->
  (nullish code = true ->
   exists m, errorString respond objToString code w = (Throw (TypeError m), w))
  /\ (nullish code = false ->
      errorString respond objToString code w
      = dispatch respond h
          (if isV1 (this w)
           then LMSGetErrorString (String_ objToString code)
           else GetErrorString (String_ objToString code)) w).
Proof.
  intros Hc Ha. unfold errorString, bind, self. cbn. rewrite Hc, Ha. cbn.
  split; intros Hn; destruct code; try discriminate; destruct (isV1 (this w));
    cbn; unfold bind, throw, ret; cbn; eauto;
    destruct (dispatch respond h _ w); reflexivity.
Qed.

(** ** Discovery on lists with a [null], and by autodetection *)

(** The loop, started with the locals of a SCORM 1.2 instance, over
    windows without the API object and then a [null]. *)
Lemma for_of_null_v1 depth dom (before : list WinRef) rest a1 :
  truthy a1 = false ->
  (forall r, In r before -> truthy (API (dom r)) = false) ->
  exists m,
    for_of depth dom (map Some before ++ None :: rest) a1 (VBool true)
    = inl (TypeError m).
Proof.
  revert a1. induction before as [ | r before' IH]; intros a1 Ha H; cbn.
  - rewrite Ha. eauto.
  - rewrite do_while_once.
    assert (Hr : truthy (js_or a1 (API (dom r))) = false).
    { unfold js_or. rewrite Ha. apply H. now left. }
    rewrite Hr. cbn. apply IH; [ exact Hr | ].
    intros r' Hr'. apply H. now right.
Qed.

Lemma for_of_null_v2004 depth dom (before : list WinRef) rest a2 :
  truthy a2 = false ->
  (forall r, In r before -> truthy (API_1484_11 (dom r)) = false) ->
  exists m,
    for_of depth dom (map Some before ++ None :: rest) (VBool true) a2
    = inl (TypeError m).
Proof.
  revert a2. induction before as [ | r before' IH]; intros a2 Ha H; cbn.
  - rewrite Ha. eauto.
  - rewrite do_while_once.
    assert (Hr : truthy (js_or a2 (API_1484_11 (dom r))) = false).
    { unfold js_or. rewrite Ha. apply H. now left. }
    rewrite Hr. cbn. apply IH; [ exact Hr | ].
    intros r' Hr'. apply H. now right.
Qed.

(** X13. A [null] in the list of windows (as [window.top.opener] is in a
    page without opener) makes discovery throw a [TypeError], with the
    instance untouched, unless a window listed before it holds the slot of
    the version: the slot of the global window is not even looked at. *)
Theorem findAPI_throws_on_null_window
  dom global (before : list WinRef) rest (w : World HostState) :
  version (this w) = Some VERSION_1_2 \/ version (this w) = Some VERSION_2004 ->
  (forall r, In r before -> truthy (pinned_slot (this w) (dom r)) = false) ->
  exists m,
    findAPI dom global (map Some before ++ None :: rest) w = (Throw (TypeError m), w).
Proof.
  intros Hversion H. unfold findAPI, bind, self, search. cbn.
  unfold pinned_slot, isV1 in H.
  destruct Hversion as [E | E]; rewrite E in *; cbn in *.
  - destruct (for_of_null_v1 (_depth (this w)) dom before rest (VBool false)
                eq_refl H) as [m ->].
    exists m. reflexivity.
  - destruct (for_of_null_v2004 (_depth (this w)) dom before rest (VBool false)
                eq_refl H) as [m ->].
    exists m. reflexivity.
Qed.

(** X14. On an instance without a version (the autodetection of
    [findAPI]), over windows none of which is [null]: the SCORM 1.2 slot of
    the global window wins when it is filled, also when the SCORM 2004 slot
    is filled too; else the SCORM 2004 slot when it is filled; the version
    and [_api] are set accordingly. With both slots empty nothing is
    written, and the call throws ['SCORM API not found'] unless [_api] was
    already filled, in which case it returns with the old object. *)
Theorem findAPI_autodetects dom global (ws : list WinRef) (w : World HostState) :
  has_version (this w) = false ->
  findAPI dom global (map Some ws) w
  = if truthy (API (dom global))
    then (Return tt, resolved VERSION_1_2 (API (dom global)) w)
    else if truthy (API_1484_11 (dom global))
         then (Return tt, resolved VERSION_2004 (API_1484_11 (dom global)) w)
         else if truthy (_api (this w))
              then (Return tt, w)
              else (Throw (Error "SCORM API not found"), w).
Proof.
  intros Hv. unfold has_version in Hv.
  unfold findAPI, bind, self, search. cbn.
  destruct (for_of_total (_depth (this w)) dom ws
              (js_and (version_value (version (this w)))
                      (VBool (version_differs (version (this w)) VERSION_1_2)))
              (js_and (version_value (version (this w)))
                      (VBool (version_differs (version (this w)) VERSION_2004))))
    as [found ->].
  rewrite Hv. unfold update, resolved. cbn.
  destruct (truthy (API (dom global))) eqn:H1; cbn.
  - rewrite H1. reflexivity.
  - destruct (truthy (API_1484_11 (dom global))) eqn:H2; cbn.
    + rewrite H2. reflexivity.
    + destruct (truthy (_api (this w))); destruct w; reflexivity.
Qed.

(** ** The version predicates *)

(** X19. [isV1] and [isV2] never hold together, and one of them holds
    exactly when the version is one of the two tokens: on an instance
    without a version both are false. *)
Theorem version_predicates_exclusive (s : SCORM) :
  isV1 s && isV2 s = false
  /\ isV1 s || isV2 s = recognized (version s).
Proof.
  unfold isV1, isV2, recognized. destruct (version s) as [v | ]; [ | split; reflexivity ].
  split; [ | reflexivity ].
  destruct (String.eqb_spec v VERSION_1_2) as [-> | _]; reflexivity.
Qed.

(** ** When [initialize] throws *)

(** X20. [initialize] returns [undefined] and throws nothing, except when
    the slot of the version in the global window holds a truthy value that
    is no host object: the begin of the session is then called on it
    outside the [try], a [TypeError] gets out and the instance stays
    disconnected. *)
Theorem initialize_throws_on_non_object_slot_only dom global (w : World HostState) :
  version (this w) = Some VERSION_1_2 \/ version (this w) = Some VERSION_2004 ->
  match fst (initialize respond objToString dom global w) with
  | Return v => v = VUndefined
  | Throw e =>
      exists m,
        e = TypeError m
        /\ truthy (pinned_slot (this w) (dom global)) = true
        /\ (forall h, pinned_slot (this w) (dom global) <> VObj h)
        /\ _connected (this (snd (initialize respond objToString dom global w))) = false
  end.
Proof.
  intros Hversion.
  assert (Hpinned : truthy (version_value (version (this w))) = true)
    by (destruct Hversion as [-> | ->]; reflexivity).
  unfold initialize, bind, try, self at 1. cbn.
  destruct (_connected (this w)) eqn:Hc; [ reflexivity | ].
  rewrite findAPI_pinned by exact Hpinned.
  destruct (search (this w) dom _) as [e | found]; cbn; [ reflexivity | ].
  destruct (pinned_slot (this w) (dom global)) as [ | | b | n | t | h] eqn:Hslot.
  all: destruct w as [s hs tr co]; cbn in Hc |- *; unfold with_api; cbn.
  all: destruct (isV1 s) eqn:Hv1.
  all: unfold_methods; execute.
  all: repeat match goal with
         | |- context [if ?c then _ else _] => destruct c eqn:?; execute
         end.
  all: try reflexivity.
  all: eexists; split; [ reflexivity | ];
    split; [ first [ reflexivity | assumption ] | ];
    split; [ intros ? ?; discriminate | first [ reflexivity | assumption ] ].
Qed.

End Properties.

(** * The code on particular pages *)

(** C2. For an instance with a version [findAPI] stores the slot of the
    global window, not a slot of the windows it was given. The window [1]
    is listed and holds the API object [7], which the loop finds, and
    [_api] becomes the object [9] of the global window [0], which is not
    listed; with only a bare window listed discovery succeeds all the
    same; and with the API object in the listed opener and none in the
    global window discovery fails. *)
Theorem findAPI_takes_slot_of_global_window :
  (search (this (world_new "1.2")) page_two_apis [Some 1] = inr (VObj 7, VBool true)
   /\ findAPI page_two_apis 0 [Some 1] (world_new "1.2")
      = (Return tt, with_api (VObj 9) (world_new "1.2")))
  /\ (API (page_with_api 1) = VUndefined
      /\ findAPI page_with_api 0 [Some 1] (world_new "1.2")
         = (Return tt, with_api (VObj 7) (world_new "1.2")))
  /\ (search (this (world_new "1.2")) page_opened [Some 0; Some 1]
      = inr (VObj 7, VBool true)
      /\ findAPI page_opened 0 [Some 0; Some 1] (world_new "1.2")
         = (Throw (Error "SCORM 1.2 API requested but not found"),
            with_api VUndefined (world_new "1.2"))).
Proof. repeat split. Qed.

(** C3. The loop of [findAPI] never moves from a window to its parent. The
    listed (and global) window [0] has the window [1] as parent, one hop
    away, and that parent holds the API object: the rounds on the window [0]
    end with nothing found, and discovery fails. *)
Theorem findAPI_never_visits_parent :
  parent (page_framed 0) = Some 1
  /\ API (page_framed 1) = VObj 7
  /\ do_while 10 page_framed 0 0 (VBool false) (VBool true)
     = (Normal, (VUndefined, VBool true))
  /\ search (this (world_new "1.2")) page_framed [Some 0]
     = inr (VUndefined, VBool true)
  /\ findAPI page_framed 0 [Some 0] (world_new "1.2")
     = (Throw (Error "SCORM 1.2 API requested but not found"),
        with_api VUndefined (world_new "1.2")).
Proof. repeat split. Qed.

(** C9 fails as stated: a failed discovery changes [_api]. On a new
    instance it goes from [null] to [undefined]; on an instance that had
    found the API object before, the object is dropped. *)
Lemma failed_findAPI_overwrites_api :
  (fst (findAPI page_empty 0 [Some 0] (world_new "1.2"))
   = Throw (Error "SCORM 1.2 API requested but not found")
   /\ _api (this (world_new "1.2")) = VNull
   /\ _api (this (snd (findAPI page_empty 0 [Some 0] (world_new "1.2")))) = VUndefined)
  /\ (fst (findAPI page_empty 0 [Some 0]
             (snd (findAPI page_with_api 0 [Some 0] (world_new "1.2"))))
      = Throw (Error "SCORM 1.2 API requested but not found")
      /\ _api (this (snd (findAPI page_with_api 0 [Some 0] (world_new "1.2")))) = VObj 7
      /\ _api (this (snd (findAPI page_empty 0 [Some 0]
                            (snd (findAPI page_with_api 0 [Some 0] (world_new "1.2"))))))
         <> _api (this (snd (findAPI page_with_api 0 [Some 0] (world_new "1.2"))))).
Proof. repeat split. cbn. discriminate. Qed.

(** * The theorems at work *)

Lemma set_v1_passes_value_unconverted_witness :
  _connected (this (world_connected "1.2" lms_empty)) = true
  /\ isV1 (this (world_connected "1.2" lms_empty)) = true
  /\ _api (this (world_connected "1.2" lms_empty)) = VObj 7
  /\ trace (snd (set lms_respond lms_objToString "cmi.core.score.raw" (VNum (safe 42))
                     (world_connected "1.2" lms_empty)))
     = [event 7 (LMSSetValue "cmi.core.score.raw" (VNum (safe 42))) (VStr "true")].
Proof.
  split; [ reflexivity | ]. split; [ reflexivity | ]. split; [ reflexivity | ].
  apply (set_v1_passes_value_unconverted Lms lms_respond lms_objToString
           (world_connected "1.2" lms_empty) 7 "cmi.core.score.raw" (VNum (safe 42)));
    reflexivity.
Defined.

Lemma disconnected_operations_return_null_witness :
  _connected (this (world_new "2004")) = false
  /\ ((forall key, answers_null_quietly (get lms_respond key) (world_new "2004"))
      /\ (forall key value,
             answers_null_quietly (set lms_respond lms_objToString key value)
                                  (world_new "2004"))
      /\ (forall st,
             answers_null_quietly (status lms_respond lms_objToString st)
                                  (world_new "2004"))
      /\ answers_null_quietly (save lms_respond) (world_new "2004")
      /\ answers_null_quietly (lastErrorCode lms_respond) (world_new "2004")
      /\ (forall code,
             answers_null_quietly (errorString lms_respond lms_objToString code)
                                  (world_new "2004"))).
Proof.
  split; [ reflexivity | ].
  apply (disconnected_operations_return_null Lms lms_respond lms_objToString
           (world_new "2004")).
  reflexivity.
Defined.

Lemma terminate_disconnects_on_success_only_witness :
  _connected (this (world_connected "1.2" (lms_failing "incomplete"))) = true
  /\ exists new,
       trace (snd (terminate lms_respond lms_objToString
                     (world_connected "1.2" (lms_failing "incomplete"))))
       = (trace (world_connected "1.2" (lms_failing "incomplete")) ++ new)%list
       /\ match end_session_answers new with
          | [] =>
              _connected (this (snd (terminate lms_respond lms_objToString
                                       (world_connected "1.2"
                                          (lms_failing "incomplete"))))) = true
              /\ forall h,
                   _api (this (world_connected "1.2" (lms_failing "incomplete")))
                   <> VObj h
          | [success] =>
              _connected (this (snd (terminate lms_respond lms_objToString
                                       (world_connected "1.2"
                                          (lms_failing "incomplete")))))
              = negb (truthy success)
          | _ => False
          end.
Proof.
  split; [ reflexivity | ].
  apply (terminate_disconnects_on_success_only Lms lms_respond lms_objToString
           (world_connected "1.2" (lms_failing "incomplete"))).
  reflexivity.
Defined.

Lemma initialize_moves_status_on_witness :
  _connected (this (world_new "1.2")) = false
  /\ updateStatusAfterInitialize (this (world_new "1.2")) = true
  /\ (version (this (world_new "1.2")) = Some VERSION_1_2
      \/ version (this (world_new "1.2")) = Some VERSION_2004)
  /\ pinned_slot (this (world_new "1.2")) (page_with_api 0) = VObj 7
  /\ exists a0 completion tail,
       trace (snd (initialize lms_respond lms_objToString page_with_api 0
                     (world_new "1.2")))
       = (trace (world_new "1.2")
          ++ [event 7 (LMSInitialize "") a0;
              event 7 (LMSGetValue "cmi.core.lesson_status") completion]
          ++ tail)%list
       /\ _connected (this (snd (initialize lms_respond lms_objToString page_with_api 0
                                   (world_new "1.2")))) = true
       /\ (truthy completion = false
           \/ completion = VStr "not attempted" \/ completion = VStr "unknown" ->
           exists a1 a2,
             tail = [event 7 (LMSSetValue "cmi.core.lesson_status"
                                          (VStr "incomplete")) a1;
                     event 7 (LMSCommit "") a2])
       /\ (truthy completion = true ->
           completion <> VStr "not attempted" -> completion <> VStr "unknown" ->
           tail = []).
Proof.
  split; [ reflexivity | ]. split; [ reflexivity | ].
  split; [ left; reflexivity | ]. split; [ reflexivity | ].
  apply (initialize_moves_status_on Lms lms_respond lms_objToString
           page_with_api 0 (world_new "1.2") 7);
    [ reflexivity | reflexivity | left; reflexivity | reflexivity ].
Defined.

Lemma terminate_sets_exit_then_saves_witness :
  _connected (this (world_connected "2004" (lms_failing "passed"))) = true
  /\ _api (this (world_connected "2004" (lms_failing "passed"))) = VObj 7
  /\ updateStatusBeforeTerminate (this (world_connected "2004" (lms_failing "passed")))
     = true
  /\ exists completion a1 a2 a3 rest,
       trace (snd (terminate lms_respond lms_objToString
                     (world_connected "2004" (lms_failing "passed"))))
       = (trace (world_connected "2004" (lms_failing "passed"))
          ++ [event 7 (GetValue "cmi.completion_status") completion;
              event 7 (SetValue "cmi.exit" (VStr (exit_reason false completion))) a1;
              event 7 (Commit "") a2;
              event 7 (Terminate "") a3]
          ++ rest)%list
       /\ count is_set_value rest = 0
       /\ count is_commit rest = 0
       /\ count is_end_session rest = 0.
Proof.
  split; [ reflexivity | ]. split; [ reflexivity | ]. split; [ reflexivity | ].
  apply (terminate_sets_exit_then_saves Lms lms_respond lms_objToString
           (world_connected "2004" (lms_failing "passed")) 7);
    reflexivity.
Defined.

Lemma failed_findAPI_keeps_version_and_connected_witness :
  fst (findAPI page_empty 0 [Some 0] (world_new "2004"))
  = Throw (Error "SCORM 2004 API requested but not found")
  /\ version (this (snd (findAPI page_empty 0 [Some 0] (world_new "2004"))))
     = version (this (world_new "2004"))
  /\ _connected (this (snd (findAPI page_empty 0 [Some 0] (world_new "2004"))))
     = _connected (this (world_new "2004"))
  /\ host (snd (findAPI page_empty 0 [Some 0] (world_new "2004")))
     = host (world_new "2004")
  /\ trace (snd (findAPI page_empty 0 [Some 0] (world_new "2004")))
     = trace (world_new "2004")
  /\ truthy (_api (this (snd (findAPI page_empty 0 [Some 0] (world_new "2004"))))) = false.
Proof.
  split; [ reflexivity | ].
  apply (failed_findAPI_keeps_version_and_connected Lms
           page_empty 0 [Some 0] (world_new "2004")
           "SCORM 2004 API requested but not found").
  reflexivity.
Defined.

Lemma version_fixed_at_construction_witness :
  constructor (Some "1.2") = inr (instance (Some "1.2") VNull false)
  /\ version (this (perform_all lms_respond lms_objToString
                       [DoInitialize page_with_api 0;
                        DoSet "cmi.core.score.raw" (VNum (safe 42));
                        DoTerminate;
                        DoFindAPI page_empty 0 [Some 0]]
                       (fresh (instance (Some "1.2") VNull false) lms_empty)))
     = Some "1.2".
Proof.
  split; [ reflexivity | ].
  exact (proj1 (proj2
    (version_fixed_at_construction Lms lms_respond lms_objToString
       (Some "1.2") (instance (Some "1.2") VNull false) lms_empty
       [DoInitialize page_with_api 0;
        DoSet "cmi.core.score.raw" (VNum (safe 42));
        DoTerminate;
        DoFindAPI page_empty 0 [Some 0]]
       eq_refl))).
Defined.

(** * The further properties at work *)

Lemma initialize_when_connected_witness :
  _connected (this (world_connected "1.2" lms_empty)) = true
  /\ initialize lms_respond lms_objToString page_with_api 0
       (world_connected "1.2" lms_empty)
     = (Return VUndefined,
        logged (Log [VStr "SCORM API already connected"])
               (world_connected "1.2" lms_empty)).
Proof.
  split; [ reflexivity | ].
  apply (initialize_when_connected Lms lms_respond lms_objToString page_with_api 0
           (world_connected "1.2" lms_empty)).
  reflexivity.
Defined.

Lemma terminate_when_disconnected_witness :
  _connected (this (world_new "1.2")) = false
  /\ answers_null_quietly (terminate lms_respond lms_objToString) (world_new "1.2").
Proof.
  split; [ reflexivity | ].
  apply (terminate_when_disconnected Lms lms_respond lms_objToString (world_new "1.2")).
  reflexivity.
Defined.

Lemma initialize_without_status_update_witness :
  trace (snd (initialize lms_respond lms_objToString page_with_api 0
                (snd (perform lms_respond lms_objToString
                        (PutUpdateStatusAfterInitialize false) (world_new "1.2")))))
  = [event 7 (LMSInitialize "") (VStr "true")]
  /\ _connected (this (snd (initialize lms_respond lms_objToString page_with_api 0
                              (snd (perform lms_respond lms_objToString
                                      (PutUpdateStatusAfterInitialize false)
                                      (world_new "1.2")))))) = true.
Proof.
  rewrite (initialize_without_status_update Lms lms_respond lms_objToString
             page_with_api 0
             (snd (perform lms_respond lms_objToString
                     (PutUpdateStatusAfterInitialize false) (world_new "1.2")))
             7 eq_refl eq_refl (or_introl eq_refl) eq_refl).
  split; reflexivity.
Defined.

Lemma initialize_absorbs_failed_discovery_witness :
  _connected (this (world_new "1.2")) = false
  /\ fst (findAPI page_framed 0 [Some 0; opener (page_framed (top (page_framed 0)))]
            (world_new "1.2"))
     = Throw (TypeError "Cannot read properties of null (reading 'API')")
  /\ fst (initialize lms_respond lms_objToString page_framed 0 (world_new "1.2"))
     = Return VUndefined
  /\ trace (snd (initialize lms_respond lms_objToString page_framed 0 (world_new "1.2")))
     = []
  /\ _connected (this (snd (initialize lms_respond lms_objToString page_framed 0
                              (world_new "1.2")))) = false.
Proof.
  split; [ reflexivity | ]. split; [ reflexivity | ].
  destruct (initialize_absorbs_failed_discovery Lms lms_respond lms_objToString
              page_framed 0 (world_new "1.2")
              (TypeError "Cannot read properties of null (reading 'API')")
              eq_refl eq_refl)
    as (Hr & _ & Ht & Hc & _).
  split; [ exact Hr | ]. split; [ exact Ht | exact Hc ].
Defined.

Lemma initialize_connects_iff_witness :
  _connected (this (world_new "2004")) = false
  /\ (version (this (world_new "2004")) = Some VERSION_1_2
      \/ version (this (world_new "2004")) = Some VERSION_2004)
  /\ (_connected (this (snd (initialize lms_respond lms_objToString page_two_apis 1
                               (world_new "2004")))) = true
      <-> exists h, pinned_slot (this (world_new "2004")) (page_two_apis 1) = VObj h).
Proof.
  split; [ reflexivity | ]. split; [ right; reflexivity | ].
  apply (initialize_connects_iff Lms lms_respond lms_objToString page_two_apis 1
           (world_new "2004"));
    [ reflexivity | right; reflexivity ].
Defined.

Lemma terminate_without_status_update_witness :
  exists a1 a2 rest,
    trace (snd (terminate lms_respond lms_objToString
                  (snd (perform lms_respond lms_objToString
                          (PutUpdateStatusBeforeTerminate false)
                          (world_connected "1.2" lms_empty)))))
    = ([event 7 (LMSCommit "") a1; event 7 (LMSFinish "") a2] ++ rest)%list
    /\ count is_get_value rest = 0
    /\ count is_set_value rest = 0
    /\ count is_commit rest = 0
    /\ count is_end_session rest = 0.
Proof.
  apply (terminate_without_status_update Lms lms_respond lms_objToString
           (snd (perform lms_respond lms_objToString
                   (PutUpdateStatusBeforeTerminate false)
                   (world_connected "1.2" lms_empty)))
           7);
    reflexivity.
Defined.

Lemma terminate_throws_on_nullish_error_code_only_witness :
  _connected (this (world_connected "1.2" lms_silent)) = true
  /\ _api (this (world_connected "1.2" lms_silent)) = VObj 7
  /\ match fst (terminate lms_respond lms_objToString (world_connected "1.2" lms_silent)) with
     | Return v => v = VUndefined
     | Throw e =>
         exists m before c code,
           e = TypeError m
           /\ trace (snd (terminate lms_respond lms_objToString
                            (world_connected "1.2" lms_silent)))
              = (before ++ [event 7 c code])%list
           /\ is_last_error c = true
           /\ nullish code = true
           /\ _connected (this (snd (terminate lms_respond lms_objToString
                                       (world_connected "1.2" lms_silent)))) = true
     end.
Proof.
  split; [ reflexivity | ]. split; [ reflexivity | ].
  apply (terminate_throws_on_nullish_error_code_only Lms lms_respond lms_objToString
           (world_connected "1.2" lms_silent) 7);
    reflexivity.
Defined.

Lemma errorString_converts_code_witness :
  _connected (this (world_connected "2004" lms_empty)) = true
  /\ _api (this (world_connected "2004" lms_empty)) = VObj 7
  /\ (exists m,
        errorString lms_respond lms_objToString VNull (world_connected "2004" lms_empty)
        = (Throw (TypeError m), world_connected "2004" lms_empty))
  /\ errorString lms_respond lms_objToString (VNum (safe 101)) (world_connected "2004" lms_empty)
     = dispatch lms_respond 7 (GetErrorString "101") (world_connected "2004" lms_empty).
Proof.
  split; [ reflexivity | ]. split; [ reflexivity | ].
  split.
  - apply (proj1 (errorString_converts_code Lms lms_respond lms_objToString
                    (world_connected "2004" lms_empty) 7 VNull eq_refl eq_refl)).
    reflexivity.
  - apply (proj2 (errorString_converts_code Lms lms_respond lms_objToString
                    (world_connected "2004" lms_empty) 7 (VNum (safe 101)) eq_refl eq_refl)).
    reflexivity.
Defined.

Lemma findAPI_throws_on_null_window_witness :
  (version (this (world_new "1.2")) = Some VERSION_1_2
   \/ version (this (world_new "1.2")) = Some VERSION_2004)
  /\ (forall r, In r [0] ->
        truthy (pinned_slot (this (world_new "1.2")) (page_framed r)) = false)
  /\ exists m,
       findAPI page_framed 0 [Some 0; None] (world_new "1.2")
       = (Throw (TypeError m), world_new "1.2").
Proof.
  assert (H : forall r, In r [0] ->
                truthy (pinned_slot (this (world_new "1.2")) (page_framed r)) = false).
  { intros r [<- | []]. reflexivity. }
  split; [ left; reflexivity | ]. split; [ exact H | ].
  exact (findAPI_throws_on_null_window Lms page_framed 0 [0] [] (world_new "1.2")
           (or_introl eq_refl) H).
Defined.

Lemma findAPI_autodetects_witness :
  has_version (this world_unversioned) = false
  /\ findAPI page_two_apis 1 [Some 1] world_unversioned
     = (Return tt, resolved VERSION_1_2 (VObj 7) world_unversioned).
Proof.
  split; [ reflexivity | ].
  exact (findAPI_autodetects Lms page_two_apis 1 [1] world_unversioned eq_refl).
Defined.

Lemma findAPI_ignores_ancestors_witness :
  (forall r, In (Some r) [Some 0] -> page_framed r = bare_framed r)
  /\ page_framed 0 = bare_framed 0
  /\ findAPI page_framed 0 [Some 0] (world_new "1.2")
     = findAPI bare_framed 0 [Some 0] (world_new "1.2").
Proof.
  assert (H : forall r, In (Some r) [Some 0] -> page_framed r = bare_framed r).
  { intros r [E | []]. injection E as <-. reflexivity. }
  split; [ exact H | ]. split; [ reflexivity | ].
  exact (findAPI_ignores_ancestors Lms page_framed bare_framed 0 [Some 0]
           (world_new "1.2") H eq_refl).
Defined.

Lemma set_v2004_coerces_witness :
  _connected (this (world_connected "2004" lms_empty)) = true
  /\ isV1 (this (world_connected "2004" lms_empty)) = false
  /\ _api (this (world_connected "2004" lms_empty)) = VObj 7
  /\ trace (snd (set lms_respond lms_objToString "cmi.score.raw" (VNum (safe 42))
                     (world_connected "2004" lms_empty)))
     = [event 7 (SetValue "cmi.score.raw" (VStr "42")) (VStr "true")].
Proof.
  split; [ reflexivity | ]. split; [ reflexivity | ]. split; [ reflexivity | ].
  apply (set_v2004_coerces Lms lms_respond lms_objToString
           (world_connected "2004" lms_empty) 7 "cmi.score.raw" (VNum (safe 42)));
    reflexivity.
Defined.

Lemma connected_instance_on_host_witness :
  constructor (Some "2004") = inr (instance (Some "2004") VNull false)
  /\ forallb public [DoInitialize page_two_apis 1; DoSet "cmi.exit" (VStr "suspend");
                     DoSave; DoInitialize page_empty 0] = true
  /\ on_host (this (perform_all lms_respond lms_objToString
                      [DoInitialize page_two_apis 1; DoSet "cmi.exit" (VStr "suspend");
                       DoSave; DoInitialize page_empty 0]
                      (fresh (instance (Some "2004") VNull false) lms_empty))).
Proof.
  split; [ reflexivity | ]. split; [ reflexivity | ].
  apply (connected_instance_on_host Lms lms_respond lms_objToString
           (Some "2004") (instance (Some "2004") VNull false) lms_empty
           [DoInitialize page_two_apis 1; DoSet "cmi.exit" (VStr "suspend");
            DoSave; DoInitialize page_empty 0]);
    reflexivity.
Defined.

Lemma initialize_throws_on_non_object_slot_only_witness :
  (version (this (world_new "1.2")) = Some VERSION_1_2
   \/ version (this (world_new "1.2")) = Some VERSION_2004)
  /\ match fst (initialize lms_respond lms_objToString page_odd 0 (world_new "1.2")) with
     | Return v => v = VUndefined
     | Throw e =>
         exists m,
           e = TypeError m
           /\ truthy (pinned_slot (this (world_new "1.2")) (page_odd 0)) = true
           /\ (forall h, pinned_slot (this (world_new "1.2")) (page_odd 0) <> VObj h)
           /\ _connected (this (snd (initialize lms_respond lms_objToString page_odd 0
                                       (world_new "1.2")))) = false
     end.
Proof.
  split; [ left; reflexivity | ].
  apply (initialize_throws_on_non_object_slot_only Lms lms_respond lms_objToString
           page_odd 0 (world_new "1.2")).
  left; reflexivity.
Defined.
